(** * Grid path-finding test harness: model and properties

    Shallow embedding of [utils/utils.py] and [tests/lab_test.py].

    - Python integers are [Z]; Python numbers that may be [int] or [float]
      are [num].
    - Python exceptions are values of [exn]; a computation that may raise
      returns an [outcome].
    - Search-tree nodes are Python objects linked by [parent] references: they
      live in an object store ([gmap addr Node]) and are named by address.
    - Printing, drawing and calls of the search function are events of a log
      threaded through a state-and-exception monad [M]. *)

From Stdlib Require Import ZArith QArith Lia Bool Ascii String List.
From stdpp Require Import base option list gmap strings.

Local Open Scope Z_scope.

(** ** Exceptions and outcomes *)

(** The subclasses of Python's [Exception] that the harness, the builtins it
    calls and a search function can raise.  [UserError] stands for any other
    [Exception] subclass raised by the search function. *)
Inductive exn : Type :=
| ValueError (msg : string)
| TypeError
| AttributeError
| IndexError
| OverflowError
| StopIteration
| FileNotFoundError
| IsADirectoryError
| PermissionError
| UserError (tag : string).

(** [Diverge] is a computation that never returns. *)
Inductive outcome (A : Type) : Type :=
| Ok (a : A)
| Raise (e : exn)
| Diverge.
Arguments Ok {A} a.
Arguments Raise {A} e.
Arguments Diverge {A}.

Definition obind {A B} (o : outcome A) (k : A -> outcome B) : outcome B :=
  match o with
  | Ok a => k a
  | Raise e => Raise e
  | Diverge => Diverge
  end.

Notation "'let?' x := o 'in' k" := (obind o (fun x => k))
  (at level 10, x pattern, o at level 100, k at level 200).

(** ** Numbers *)

(** A Python number as the harness meets it: an [int], a finite [float]
    (every finite float is a rational), an infinity or a NaN. *)
Inductive num : Type :=
| PyInt (z : Z)
| PyFloat (q : Q)
| PyInf (negative : bool)
| PyNaN.

(** [int(x)]: truncation toward zero; [int(nan)] and [int(inf)] raise. *)
Definition py_int (x : num) : outcome Z :=
  match x with
  | PyInt z => Ok z
  | PyFloat q => Ok (Z.quot (Qnum q) (Z.pos (Qden q)))
  | PyInf _ => Raise OverflowError
  | PyNaN => Raise (ValueError "cannot convert float NaN to integer"%string)
  end.

(** ** [compute_cost] *)

Definition non_cardinal_msg : string :=
  "Trying to compute the cost of a non-supported move! ONLY cardinal moves are supported."%string.

Definition compute_cost (i1 j1 i2 j2 : Z) : outcome Z :=
  if Z.abs (i1 - i2) + Z.abs (j1 - j2) =? 1 then Ok 1
  else Raise (ValueError non_cardinal_msg).

(** The error of a non-cardinal move.  The design documents call it
    [InvalidMoveError]; in the code it is the [ValueError] above. *)
Definition InvalidMoveError : exn := ValueError non_cardinal_msg.

(** ** Python lists *)

(** [xs[k]] for an integer [k]: negative indices count from the end, and an
    index outside [-len, len) raises [IndexError]. *)
Definition py_index {A} (xs : list A) (k : Z) : outcome A :=
  let n := Z.of_nat (length xs) in
  let k' := if k <? 0 then k + n else k in
  if (0 <=? k') && (k' <? n) then
    match xs !! Z.to_nat k' with
    | Some x => Ok x
    | None => Raise IndexError
    end
  else Raise IndexError.

(** ** [convert_string_to_cells] *)

Definition newline : ascii := "010"%char.
Definition space : ascii := " "%char.
Definition hash : ascii := "#"%char.

(** [s.replace(c, "")] *)
Definition remove_char (c : ascii) (s : list ascii) : list ascii :=
  List.filter (fun x => negb (Ascii.eqb x c)) s.

(** [s.split(sep)] for a one-character separator. *)
Fixpoint split_on (sep : ascii) (s : list ascii) : list (list ascii) :=
  match s with
  | [] => [[]]
  | c :: rest =>
    if Ascii.eqb c sep then [] :: split_on sep rest
    else match split_on sep rest with
         | [] => [[c]]
         | piece :: pieces => (c :: piece) :: pieces
         end
  end.

Definition is_nonempty {A} (l : list A) : bool :=
  match l with [] => false | _ => true end.

(** [np.array(rows, dtype=np.int8)] accepts a list of rows of one common
    length and raises [ValueError] on ragged rows. *)
Definition np_array (rows : list (list Z)) : outcome (list (list Z)) :=
  match rows with
  | [] => Ok []
  | r :: rs =>
    if forallb (fun r' => Nat.eqb (length r') (length r)) rs then Ok rows
    else Raise (ValueError "inhomogeneous shape"%string)
  end.

Definition convert_string_to_cells (cell_str : string) : outcome (list (list Z)) :=
  let lines := split_on newline (remove_char space (list_ascii_of_string cell_str)) in
  np_array
    (map (fun line => map (fun char => if Ascii.eqb char hash then 1 else 0) line)
         (List.filter is_nonempty lines)).

(** ** The grid map *)

(** Modelled from the spec: class [Map] of [utils/map.py], which is not among
    the sources.  A map wraps the cell matrix; [get_size] gives (height,
    width); [traversable] is false for an out-of-bounds coordinate or a
    blocked cell and true otherwise, and never raises. *)
Record Map : Type := mkMap { cells : list (list Z) }.

Definition get_size (m : Map) : Z * Z :=
  (Z.of_nat (length (cells m)),
   match cells m with
   | [] => 0
   | row :: _ => Z.of_nat (length row)
   end).

Definition in_bounds (m : Map) (i j : Z) : bool :=
  let '(height, width) := get_size m in
  (0 <=? i) && (i <? height) && (0 <=? j) && (j <? width).

Definition traversable (m : Map) (i j : Z) : bool :=
  in_bounds m i j &&
  match cells m !! Z.to_nat i with
  | Some row =>
    match row !! Z.to_nat j with
    | Some c => c =? 0
    | None => false
    end
  | None => false
  end.

(** ** Search-tree nodes and [make_path] *)

Definition addr : Type := positive.

(** Modelled from the spec: class [BaseNode] of [utils/node.py], which is not
    among the sources.  A node has a grid position, the accumulated cost [g]
    and a [parent] reference that is empty ([None]) for the root; a node
    object is truthy. *)
Record Node : Type := mkNode {
  node_i : Z;
  node_j : Z;
  g : num;
  parent : option addr
}.

(** The loop [while current.parent: path.append(current); current =
    current.parent] followed by [path.append(current)].  [fuel] bounds the
    number of times the loop condition is evaluated; a reference that is not
    a node of the store has no [parent] attribute. *)
Fixpoint trace_parents (fuel : nat) (h : gmap addr Node) (current : addr)
    (path : list addr) : outcome (list addr) :=
  match fuel with
  | O => Diverge
  | S fuel' =>
    match h !! current with
    | None => Raise AttributeError
    | Some nd =>
      match parent nd with
      | Some p => trace_parents fuel' h p (path ++ [current])
      | None => Ok (path ++ [current])
      end
    end
  end.

(** [make_path(goal)]; [goal] may be [None], on which [goal.g] raises. *)
Definition make_path (fuel : nat) (h : gmap addr Node) (goal : option addr)
    : outcome (list addr * num) :=
  match goal with
  | None => Raise AttributeError
  | Some a =>
    match h !! a with
    | None => Raise AttributeError
    | Some nd =>
      let length := g nd in
      let current := a in
      let path := [] in
      let? path := trace_parents fuel h current path in
      Ok (rev path, length)
    end
  end.

(** The parent chain of the node at [a] ends at a root after [k] links. *)
Inductive chain_depth (h : gmap addr Node) : addr -> nat -> Prop :=
| chain_root a nd :
    h !! a = Some nd -> parent nd = None -> chain_depth h a 0
| chain_link a nd p k :
    h !! a = Some nd -> parent nd = Some p -> chain_depth h p k ->
    chain_depth h a (S k).

(** [path] lists a root first and then, one by one, a child of the node
    before it. *)
Fixpoint follows (h : gmap addr Node) (prev : addr) (path : list addr) : Prop :=
  match path with
  | [] => True
  | a :: rest =>
    (exists nd, h !! a = Some nd /\ parent nd = Some prev) /\ follows h a rest
  end.

Definition root_first (h : gmap addr Node) (path : list addr) : Prop :=
  match path with
  | [] => False
  | r :: rest =>
    (exists nd, h !! r = Some nd /\ parent nd = None) /\ follows h r rest
  end.

(** ** Reports, events and search results *)

(** What the runners print.  [ExecutionError] covers both the
    "Execution error" line and the traceback printed after it. *)
Inductive report : Type :=
| PathFound (path_length : num) (search_tree_size number_of_steps : Z)
            (correct : bool)
| PathNotFound
| NoPathConfirmed (search_tree_size number_of_steps : Z)
| TaskPathFound (task_count : nat) (path_length : num)
                (search_tree_size number_of_steps : Z) (correct : bool)
| TaskPathNotFound (task_count : nat)
| ExecutionError (e : exn)
| TestingHalted.

Inductive event : Type :=
| Called (task_map : Map) (start_i start_j goal_i goal_j : Z)
| Drawn (task_map : Map) (start goal : Z * Z) (path : option (list addr))
        (other_results : list (list addr))
| Printed (r : report).

(** The tuple a search function returns, after unpacking into [found],
    [end_node], [number_of_steps], [search_tree_size] and [*other_results],
    together with the node objects it has built ([tree]).  A return value
    that does not unpack this way makes the unpacking raise inside the
    runner's [try]; that is the [Raise] outcome of the search function. *)
Record search_result : Type := mkResult {
  found : bool;
  end_node : option addr;
  number_of_steps : Z;
  search_tree_size : Z;
  other_results : list (list addr);
  tree : gmap addr Node
}.

(** The dictionary [stat] of [massive_test], one field per key. *)
Record stat : Type := mkStat {
  corr : list bool;
  len : list num;
  st_size : list Z;
  steps : list Z
}.

Definition empty_stat : stat :=
  {| corr := []; len := []; st_size := []; steps := [] |}.

(** ** The fixed pools of [simple_test] and [simple_test_not_found] *)

Definition simple_map_str : string :=
"
. . . . . . . . . . . . . . . . . . . . . # # . . . . . . .  
. . . . . . . . . . . . . . . . . . . . . # # . . . . . . . 
. . . . . . . . . . . . . . . . . . . . . # # . . . . . . . 
. . . # # . . . . . . . . . . . . . . . . # # . . . . . . . 
. . . # # . . . . . . . . # # . . . . . . # # . . . . . . . 
. . . # # . . . . . . . . # # . . . . . . # # # # # . . . . 
. . . # # . . . . . . . . # # . . . . . . # # # # # . . . . 
. . . # # . . . . . . . . # # . . . . . . . . . . . . . . . 
. . . # # . . . . . . . . # # . . . . . . . . . . . . . . . 
. . . # # . . . . . . . . # # . . . . . . . . . . . . . . . 
. . . # # . . . . . . . . # # . . . . . . . . . . . . . . . 
. . . # # . . . . . . . . # # . . . . . . . . . . . . . . . 
. . . . . . . . . . . . . # # . . . . . . . . . . . . . . . 
. . . . . . . . . . . . . # # . . . . . . . . . . . . . . .
. . . . . . . . . . . . . # # . . . . . . . . . . . . . . .
"%string.

Definition simple_starts : list (Z * Z) :=
  [(9, 0); (13, 0); (7, 28); (14, 29); (4, 1); (0, 17); (5, 6); (5, 20);
   (12, 2); (7, 28); (11, 9); (3, 2); (3, 17); (13, 20); (1, 1); (9, 10);
   (14, 6); (2, 0); (9, 28); (8, 6); (11, 6); (3, 0); (8, 9); (14, 7);
   (12, 4)].

Definition simple_goals : list (Z * Z) :=
  [(11, 20); (2, 19); (6, 5); (4, 18); (9, 20); (7, 0); (2, 25); (12, 4);
   (3, 25); (0, 12); (4, 23); (2, 24); (9, 2); (1, 6); (13, 29); (14, 29);
   (2, 28); (14, 16); (13, 0); (1, 27); (14, 25); (10, 20); (12, 28);
   (2, 29); (1, 29)].

Definition simple_lengths : list Z :=
  [36; 30; 30; 21; 28; 24; 32; 27; 42; 23; 35; 37; 23; 26; 40; 36; 42; 28;
   44; 36; 38; 29; 33; 42; 44].

Definition not_found_map_str : string :=
"
. . . . . . . . . . . . . . . . . . . . . # # . . . . . . .  
. . . . . . . . . . . . . . . . . . . . . # # . . . . . . . 
. . . . . . . . . . . . . . . . . . . . . # # . . . . . . . 
. . . # # . . . . . . . . . . . . . . . . # # . . . . . . . 
. . . # # . . . . . . . . # # . . . . . . # # . . . . . . . 
. . . # # . . . . . . . . # # . . . . . . # # # # # . . . . 
. . . # # . . . . . . . . # # . . . . . . # # # # # . . . . 
. . . # # . . . . . . # # # # . . . . . . # . . . . . . . . 
. . . # # . . . . . . # . # # . . . . . . # . . . . . . . . 
. . . # # . . . . . . # . # # . . . . . . # . . . . . . . . 
. . . # # . . . . . . # . # # . . . . . . # . . . . . . . . 
. . . # # . . . . . . # # # # . . . . . . # . . . . . . . . 
. . . . . . . . . . . . . # # . . . . . . # . . . . . . . . 
. . . . . . . . . . . . . # # . . . . . . # . . . . . . . .
. . . . . . . . . . . . . # # . . . . . . # . . . . . . . .
"%string.

Definition not_found_starts : list (Z * Z) := [(0, 0); (0, 0)].
Definition not_found_goals : list (Z * Z) := [(14, 25); (9, 12)].

(** ** The runners *)

Section Harness.

(** Everything a search function can read and change between calls. *)
Context {World : Type}.

(** The search function under test, with its [*args] already supplied.
    It either returns a result, raises, or never returns. *)
Variable search_function :
  World -> Map -> Z -> Z -> Z -> Z -> outcome search_result * World.

(** The builtins [int] and [float] applied to a line of text; [None] is a
    text they reject with [ValueError]. *)
Variable parse_int : string -> option Z.
Variable parse_float : string -> option num.

(** The directory [data_path]: what [open] gives for ["{k}.map"], either
    the (decoded) lines of the file or the exception with which opening
    fails ([FileNotFoundError], [IsADirectoryError], [PermissionError],
    ...). *)
Variable files : nat -> outcome (list string).

Record state : Type := mkState { world : World; log : list event }.

Definition M (A : Type) : Type := state -> outcome A * state.

Definition ret {A} (a : A) : M A := fun s => (Ok a, s).

Definition bind {A B} (m : M A) (k : A -> M B) : M B :=
  fun s =>
    match m s with
    | (Ok a, s') => k a s'
    | (Raise e, s') => (Raise e, s')
    | (Diverge, s') => (Diverge, s')
    end.

Definition lift {A} (o : outcome A) : M A := fun s => (o, s).

Definition emit (ev : event) : M unit :=
  fun s => (Ok tt, {| world := world s; log := log s ++ [ev] |}).

Definition print (r : report) : M unit := emit (Printed r).

(** [try: body  except Exception as e: handler(e)] *)
Definition try_except {A} (body : M A) (handler : exn -> M A) : M A :=
  fun s =>
    match body s with
    | (Raise e, s') => handler e s'
    | r => r
    end.

Notation "'do' x <- m ; k" := (bind m (fun x => k))
  (at level 10, x name, m at level 100, k at level 200).
Notation "'do' ' pat <- m ; k" :=
  (bind m (fun x => match x with pat => k end))
  (at level 10, pat pattern, m at level 100, k at level 200).
Notation "'run' m ; k" := (bind m (fun _ => k))
  (at level 10, m at level 100, k at level 200).

Definition call_search (task_map : Map) (start_i start_j goal_i goal_j : Z)
    : M search_result :=
  fun s =>
    let '(r, w) :=
      search_function (world s) task_map start_i start_j goal_i goal_j in
    (r, {| world := w;
           log := log s ++ [Called task_map start_i start_j goal_i goal_j] |}).

(** [draw] is a rendering routine; the model keeps the call as an event and
    leaves out failures inside the imaging libraries.  It has three optional
    overlay parameters after [path], so more than three [other_results]
    make the call itself raise [TypeError]. *)
Definition draw (grid_map : Map) (start goal : Z * Z)
    (path : option (list addr)) (overlays : list (list addr)) : M unit :=
  if (3 <? length overlays)%nat then lift (Raise TypeError)
  else emit (Drawn grid_map start goal path overlays).

(** *** [read_task_from_file] *)

Definition next (lines : list string) : outcome (string * list string) :=
  match lines with
  | [] => Raise StopIteration
  | l :: rest => Ok (l, rest)
  end.

Definition int_of_text (t : string) : outcome Z :=
  match parse_int t with
  | Some z => Ok z
  | None => Raise (ValueError "invalid literal for int()"%string)
  end.

Definition float_of_text (t : string) : outcome num :=
  match parse_float t with
  | Some x => Ok x
  | None => Raise (ValueError "could not convert string to float"%string)
  end.

(** [[next(tasks_file) for _ in range(height)]] *)
Fixpoint next_n (n : nat) (lines : list string)
    : outcome (list string * list string) :=
  match n with
  | O => Ok ([], lines)
  | S n' =>
    let? (l, rest) := next lines in
    let? (ls, rest') := next_n n' rest in
    Ok (l :: ls, rest')
  end.

Definition task : Type := list (list Z) * Z * Z * Z * Z * num.

Definition read_task_from_file (file : outcome (list string)) : outcome task :=
  let? tasks_file := file in
  let? (t, tasks_file) := next tasks_file in
  let? height := int_of_text t in
  let? (t, tasks_file) := next tasks_file in
  let? width := int_of_text t in
  let? (map_lines, tasks_file) := next_n (Z.to_nat height) tasks_file in
  let map_str := String.concat ""%string map_lines in
  let? cells := convert_string_to_cells map_str in
  let? (t, tasks_file) := next tasks_file in
  let? start_i := int_of_text t in
  let? (t, tasks_file) := next tasks_file in
  let? start_j := int_of_text t in
  let? (t, tasks_file) := next tasks_file in
  let? goal_i := int_of_text t in
  let? (t, tasks_file) := next tasks_file in
  let? goal_j := int_of_text t in
  let? (t, tasks_file) := next tasks_file in
  let? length := float_of_text t in
  Ok (cells, start_i, start_j, goal_i, goal_j, length).

(** *** [simple_test] *)

(** [get_map_data()]: the curated map is rectangular, so the conversion
    does not raise. *)
Definition get_map_data (map_str : string) : M Map :=
  do cells <- lift (convert_string_to_cells map_str);
  ret (mkMap cells).

(** The task index actually used: the argument when it is an integer of
    [0 <= task < pool], otherwise the draw [random.randint(0, pool - 1)],
    here [drawn]. *)
Definition choose_task (pool : Z) (task : option Z) (drawn : Z) : Z :=
  match task with
  | None => drawn
  | Some t => if negb ((0 <=? t) && (t <? pool)) then drawn else t
  end.

Definition simple_test (fuel : nat) (task : option Z) (drawn : Z) : M unit :=
  do task_map <- get_map_data simple_map_str;
  let task := choose_task 25 task drawn in
  do start <- lift (py_index simple_starts task);
  do goal <- lift (py_index simple_goals task);
  do length <- lift (py_index simple_lengths task);
  try_except
    (do r <- call_search task_map (fst start) (snd start)
                         (fst goal) (snd goal);
     if found r then
       do ' (path, path_length) <-
         lift (make_path fuel (tree r) (end_node r));
       do a <- lift (py_int path_length);
       do b <- lift (py_int (PyInt length));
       let correct := a =? b in
       run draw task_map start goal (Some path) (other_results r);
       print (PathFound path_length (search_tree_size r) (number_of_steps r)
                        correct)
     else
       print PathNotFound)
    (fun e => print (ExecutionError e)).

(** *** [simple_test_not_found] *)

Definition simple_test_not_found (fuel : nat) (task : option Z) (drawn : Z)
    : M unit :=
  do task_map <- get_map_data not_found_map_str;
  let task := choose_task 2 task drawn in
  do start <- lift (py_index not_found_starts task);
  do goal <- lift (py_index not_found_goals task);
  try_except
    (do r <- call_search task_map (fst start) (snd start)
                         (fst goal) (snd goal);
     if negb (found r) then
       run draw task_map start goal None (other_results r);
       print (NoPathConfirmed (search_tree_size r) (number_of_steps r))
     else
       do ' (path, path_length) <-
         lift (make_path fuel (tree r) (end_node r));
       run draw task_map start goal (Some path) (other_results r);
       print (PathFound path_length (search_tree_size r) (number_of_steps r)
                        false))
    (fun e => print (ExecutionError e)).

(** *** [massive_test] *)

(** The [if found: ... else: ...] of the batch loop: report the task and
    append to ["len"] and ["corr"]. *)
Definition record_outcome (fuel : nat) (task_count : nat) (length : num)
    (r : search_result) (st : stat) : M stat :=
  if found r then
    do ' (_, path_length) <- lift (make_path fuel (tree r) (end_node r));
    do a <- lift (py_int path_length);
    do b <- lift (py_int length);
    let correct := a =? b in
    run print (TaskPathFound task_count path_length (search_tree_size r)
                             (number_of_steps r) correct);
    ret {| corr := corr st ++ [correct];
           len := len st ++ [path_length];
           st_size := st_size st;
           steps := steps st |}
  else
    run print (TaskPathNotFound task_count);
    ret {| corr := corr st ++ [false];
           len := len st ++ [PyFloat 0];
           st_size := st_size st;
           steps := steps st |}.

(** The body of the [try] for one task.  Every operation that can raise
    comes before the first [append], so an exception leaves [stat] as it
    was when the task began. *)
Definition evaluate_task (fuel : nat) (task_count : nat) (task_map : Map)
    (start_i start_j goal_i goal_j : Z) (length : num) (st : stat) : M stat :=
  do r <- call_search task_map start_i start_j goal_i goal_j;
  do st <- record_outcome fuel task_count length r st;
  ret {| corr := corr st;
         len := len st;
         st_size := st_size st ++ [search_tree_size r];
         steps := steps st ++ [number_of_steps r] |}.

(** One iteration of [for task_count in range(task_num)]: the task is read
    and its map built outside the [try]. *)
Definition run_task (fuel : nat) (task_count : nat) (st : stat) : M stat :=
  do ' (cells, start_i, start_j, goal_i, goal_j, length) <-
    lift (read_task_from_file (files task_count));
  let task_map := mkMap cells in
  try_except
    (evaluate_task fuel task_count task_map
                   start_i start_j goal_i goal_j length st)
    (fun e => run print (ExecutionError e); ret st).

Fixpoint massive_loop (fuel : nat) (tasks : list nat) (st : stat) : M stat :=
  match tasks with
  | [] => ret st
  | task_count :: rest =>
    do st <- run_task fuel task_count st;
    massive_loop fuel rest st
  end.

Definition massive_test (fuel : nat) (num_of_tasks : option Z) : M stat :=
  let stat := empty_stat in
  match num_of_tasks with
  | None => run print TestingHalted; ret stat
  | Some n =>
    if n <=? 0 then run print TestingHalted; ret stat
    else
      let task_num := n in
      massive_loop fuel (seq 0 (Z.to_nat task_num)) stat
  end.

(** *** Notions used to state the properties of the runners *)

(** The search function always comes back (with a result or an
    exception), and the parent chain of a goal node it reports is short
    enough for [make_path] to finish within [fuel]. *)
Definition returns_or_raises (fuel : nat) : Prop :=
  forall w task_map start_i start_j goal_i goal_j,
    match fst (search_function w task_map start_i start_j goal_i goal_j) with
    | Ok r =>
      found r = true -> make_path fuel (tree r) (end_node r) <> Diverge
    | Raise _ => True
    | Diverge => False
    end.

(** The file of every task below [n] is read without an exception. *)
Definition readable (n : nat) : Prop :=
  forall k, (k < n)%nat ->
    exists t, read_task_from_file (files k) = Ok t.

(** What one iteration of the batch loop makes of the outcome of the search
    call: the report it prints and the statistics it leaves.  A call that
    raises is reported as an execution error and leaves [stat] as it was;
    so does a found path whose length cannot be reconstructed or compared.
    A call that returns is reported as found or not found and gets one
    entry in each of the four sequences. *)
Inductive task_result (fuel : nat) (k : nat) (expected : num) (st : stat)
    : outcome search_result -> report -> stat -> Prop :=
| search_raised e :
    task_result fuel k expected st (Raise e) (ExecutionError e) st
| search_found_nothing r :
    found r = false ->
    task_result fuel k expected st (Ok r) (TaskPathNotFound k)
      {| corr := corr st ++ [false];
         len := len st ++ [PyFloat 0];
         st_size := st_size st ++ [search_tree_size r];
         steps := steps st ++ [number_of_steps r] |}
| search_found_path r path path_length a b :
    found r = true ->
    make_path fuel (tree r) (end_node r) = Ok (path, path_length) ->
    py_int path_length = Ok a ->
    py_int expected = Ok b ->
    task_result fuel k expected st (Ok r)
      (TaskPathFound k path_length (search_tree_size r) (number_of_steps r)
                     (a =? b))
      {| corr := corr st ++ [a =? b];
         len := len st ++ [path_length];
         st_size := st_size st ++ [search_tree_size r];
         steps := steps st ++ [number_of_steps r] |}
| search_result_unusable r e :
    found r = true ->
    (make_path fuel (tree r) (end_node r) = Raise e \/
     exists path path_length,
       make_path fuel (tree r) (end_node r) = Ok (path, path_length) /\
       (py_int path_length = Raise e \/
        exists a, py_int path_length = Ok a /\ py_int expected = Raise e)) ->
    task_result fuel k expected st (Ok r) (ExecutionError e) st.

(** A run of the batch loop over the task numbers [tasks], from the world
    [w] and the statistics [st]: each task is read from its file, the search
    function is called on the map, start and goal of that file in the world
    the previous call left, and the outcome of that very call decides the
    report and the statistics as [task_result] says. *)
Inductive batch_run (fuel : nat)
    : list nat -> World -> stat -> list event -> World -> stat -> Prop :=
| run_done w st : batch_run fuel [] w st [] w st
| run_next k ks w st cells0 start_i start_j goal_i goal_j expected
           res w' rep st' evs w'' st'' :
    read_task_from_file (files k)
    = Ok (cells0, start_i, start_j, goal_i, goal_j, expected) ->
    search_function w (mkMap cells0) start_i start_j goal_i goal_j
    = (res, w') ->
    task_result fuel k expected st res rep st' ->
    batch_run fuel ks w' st' evs w'' st'' ->
    batch_run fuel (k :: ks) w st
      (Called (mkMap cells0) start_i start_j goal_i goal_j ::
       Printed rep :: evs)
      w'' st''.

End Harness.

(** The cell matrices that [get_map_data] builds from the two map texts. *)
Definition simple_cells : list (list Z) :=
  Eval vm_compute in
    match convert_string_to_cells simple_map_str with
    | Ok rows => rows
    | _ => []
    end.

Definition not_found_cells : list (list Z) :=
  Eval vm_compute in
    match convert_string_to_cells not_found_map_str with
    | Ok rows => rows
    | _ => []
    end.

Definition simple_map : Map := mkMap simple_cells.
Definition not_found_map : Map := mkMap not_found_cells.

(** ** Paths on a grid map *)

Definition cell : Type := (Z * Z)%type.

(** The cost of walking through the cells of [p] in order, as the sum of
    [compute_cost] over consecutive cells; a move that [compute_cost]
    rejects makes the whole walk invalid. *)
Fixpoint path_cost (p : list cell) : outcome Z :=
  match p with
  | [] => Ok 0
  | a :: rest =>
    match rest with
    | [] => Ok 0
    | b :: _ =>
      let? c := compute_cost (fst a) (snd a) (fst b) (snd b) in
      let? c' := path_cost rest in
      Ok (c + c')
    end
  end.

Definition all_traversable (m : Map) (p : list cell) : bool :=
  forallb (fun c => traversable m (fst c) (snd c)) p.

(** [p] is a 4-connected path of cost [c] from [s] to [t] through
    traversable cells of [m]. *)
Definition connects (m : Map) (s t : cell) (p : list cell) (c : Z) : Prop :=
  head p = Some s /\ last p = Some t /\
  all_traversable m p = true /\ path_cost p = Ok c.

(** *** Distance labellings

    A labelling gives some cells a natural number.  It is [consistent] when
    every labelled traversable cell has all its traversable neighbours
    labelled, each at most one higher.  The labels of a consistent labelling
    bound the cost of every path from below. *)

Definition labelling : Type := list (list (option nat)).

Definition label_at (lab : labelling) (c : cell) : option nat :=
  if (0 <=? fst c) && (0 <=? snd c) then
    match lab !! Z.to_nat (fst c) with
    | Some row =>
      match row !! Z.to_nat (snd c) with
      | Some l => l
      | None => None
      end
    | None => None
    end
  else None.

Definition neighbours (c : cell) : list cell :=
  [(fst c - 1, snd c); (fst c + 1, snd c); (fst c, snd c - 1); (fst c, snd c + 1)].

Definition relaxed (m : Map) (lab : labelling) (c : cell) : bool :=
  if traversable m (fst c) (snd c) then
    match label_at lab c with
    | None => true
    | Some d =>
      forallb
        (fun c' =>
           if traversable m (fst c') (snd c') then
             match label_at lab c' with
             | Some d' => (d' <=? S d)%nat
             | None => false
             end
           else true)
        (neighbours c)
    end
  else true.

Definition range (n : Z) : list Z := map Z.of_nat (seq 0 (Z.to_nat n)).

Definition consistent (m : Map) (lab : labelling) : bool :=
  let '(height, width) := get_size m in
  forallb (fun i => forallb (fun j => relaxed m lab (i, j)) (range width))
          (range height).

(** Breadth-first distances from [start] by [rounds] rounds of relaxation:
    each round lowers a cell's label to one more than its best labelled
    neighbour.  The result is only a candidate; [consistent] checks it. *)
Definition min_label (a b : option nat) : option nat :=
  match a, b with
  | Some x, Some y => Some (Nat.min x y)
  | Some x, None => Some x
  | None, b => b
  end.

Definition relax_cell (m : Map) (lab : labelling) (c : cell) : option nat :=
  if traversable m (fst c) (snd c) then
    fold_left
      (fun acc c' =>
         if traversable m (fst c') (snd c') then
           min_label acc (option_map S (label_at lab c'))
         else acc)
      (neighbours c) (label_at lab c)
  else None.

Definition relax_all (m : Map) (lab : labelling) : labelling :=
  let '(height, width) := get_size m in
  map (fun i => map (fun j => relax_cell m lab (i, j)) (range width))
      (range height).

Definition initial_labels (m : Map) (start : cell) : labelling :=
  let '(height, width) := get_size m in
  map (fun i =>
         map (fun j =>
                if (i =? fst start) && (j =? snd start) &&
                   traversable m i j
                then Some O else None)
             (range width))
      (range height).

Definition distances (rounds : nat) (m : Map) (start : cell) : labelling :=
  Nat.iter rounds (relax_all m) (initial_labels m start).

(** *** The first task of each fixed pool *)

(** Candidate distances from the start of task 0 on each fixed map. *)
Definition simple_labels : labelling :=
  Eval vm_compute in distances 64 simple_map (9, 0).

Definition not_found_labels : labelling :=
  Eval vm_compute in distances 64 not_found_map (0, 0).

(** Up column 0 to row 2, along row 2 to column 20, down column 20. *)
Definition simple_task0_path : list cell :=
  map (fun k => (9 - k, 0)) (range 7) ++
  map (fun k => (2, k)) (range 20) ++
  map (fun k => (2 + k, 20)) (range 10).

(** What a correct search reports for a task: [found] exactly when some
    path joins start and goal, and then a goal node from which [make_path]
    reconstructs a length that is the cost of a cheapest path. *)
Definition correct_answer (fuel : nat) (m : Map) (s t : cell)
    (r : search_result) : Prop :=
  (found r = true <-> exists p c, connects m s t p c) /\
  (found r = true ->
   exists path path_length c,
     make_path fuel (tree r) (end_node r) = Ok (path, path_length) /\
     py_int path_length = Ok c /\
     (exists p, connects m s t p c) /\
     (forall p' c', connects m s t p' c' -> c <= c')).

(** ** What a batch leaves in the log *)

Definition count_calls (evs : list event) : nat :=
  length (List.filter (fun ev => match ev with Called _ _ _ _ _ => true | _ => false end) evs).

Definition count_errors (evs : list event) : nat :=
  length (List.filter (fun ev => match ev with
                            | Printed (ExecutionError _) => true
                            | _ => false
                            end) evs).

(** The tasks reported as evaluated, with the length and the correctness
    flag reported for each, in the order of the reports. *)
Fixpoint reported (evs : list event) : list (nat * num * bool) :=
  match evs with
  | [] => []
  | Printed (TaskPathFound k path_length _ _ correct) :: rest =>
    (k, path_length, correct) :: reported rest
  | Printed (TaskPathNotFound k) :: rest =>
    (k, PyFloat 0, false) :: reported rest
  | _ :: rest => reported rest
  end.

(** The effect of one iteration of the batch loop on the log and on
    [stat]: the search function is called once, and then either an
    exception is reported and [stat] is left alone, or the task is reported
    and every sequence of [stat] gets one more entry. *)
Inductive task_step (k : nat) (st : stat) : list event -> stat -> Prop :=
| step_error m a b c d e :
    task_step k st [Called m a b c d; Printed (ExecutionError e)] st
| step_found m a b c d path_length size nsteps correct :
    task_step k st
      [Called m a b c d;
       Printed (TaskPathFound k path_length size nsteps correct)]
      {| corr := corr st ++ [correct];
         len := len st ++ [path_length];
         st_size := st_size st ++ [size];
         steps := steps st ++ [nsteps] |}
| step_not_found m a b c d size nsteps :
    task_step k st
      [Called m a b c d; Printed (TaskPathNotFound k)]
      {| corr := corr st ++ [false];
         len := len st ++ [PyFloat 0];
         st_size := st_size st ++ [size];
         steps := steps st ++ [nsteps] |}.

Inductive batch_steps : list nat -> stat -> list event -> stat -> Prop :=
| batch_done st : batch_steps [] st [] st
| batch_next k ks st evs st' evs' st'' :
    task_step k st evs st' -> batch_steps ks st' evs' st'' ->
    batch_steps (k :: ks) st (evs ++ evs') st''.

(** [task] arguments for which a single-task runner draws a random index:
    [None], or an integer outside [0 <= task < pool]. *)
Definition needs_draw (pool : Z) (task : option Z) : Prop :=
  match task with
  | None => True
  | Some t => ~ (0 <= t < pool)
  end.

(** [num_of_tasks] values that [massive_test] rejects. *)
Definition rejected_count (num_of_tasks : option Z) : Prop :=
  match num_of_tasks with
  | None => True
  | Some n => n <= 0
  end.

(** ** A small concrete setting

    A two-node search tree, a search function that fails on its third call,
    and a directory of identical one-row task files; used to run the
    runners on concrete inputs. *)
Module Demo.

Definition digit (c : ascii) : option Z :=
  let n := Z.of_nat (nat_of_ascii c) in
  if (48 <=? n) && (n <=? 57) then Some (n - 48) else None.

Fixpoint digits (acc : Z) (s : list ascii) : option Z :=
  match s with
  | [] => Some acc
  | c :: rest =>
    match digit c with
    | Some d => digits (10 * acc + d) rest
    | None => None
    end
  end.

(** [int] on unsigned decimal text with an optional line end. *)
Definition parse_int (t : string) : option Z :=
  match remove_char newline (list_ascii_of_string t) with
  | [] => None
  | cs => digits 0 cs
  end.

Definition parse_float (t : string) : option num :=
  option_map (fun z => PyFloat (inject_Z z)) (parse_int t).

Definition line (t : string) : string :=
  String.append t (String newline EmptyString).

(** A 1x2 map, start (0, 0), goal (0, 1), reference length 1. *)
Definition task_file : list string :=
  map line ["1"; "2"; ". ."; "0"; "0"; "0"; "1"; "1"]%string.

Definition the_task : list (list Z) * Z * Z * Z * Z * num :=
  ([[0; 0]], 0, 0, 0, 1, PyFloat (inject_Z 1)).

Definition files (k : nat) : outcome (list string) := Ok task_file.

(** The same directory with the file of task 2 missing. *)
Definition files_without_2 (k : nat) : outcome (list string) :=
  if (k =? 2)%nat then Raise FileNotFoundError else Ok task_file.

Definition root : Node :=
  {| node_i := 0; node_j := 0; g := PyInt 0; parent := None |}.
Definition leaf : Node :=
  {| node_i := 0; node_j := 1; g := PyInt 1; parent := Some 1%positive |}.
Definition two_nodes : gmap addr Node :=
  <[2%positive := leaf]> (<[1%positive := root]> ∅).

Definition found_leaf : search_result :=
  {| found := true; end_node := Some 2%positive;
     number_of_steps := 2; search_tree_size := 2;
     other_results := []; tree := two_nodes |}.

(** The world is the number of calls made so far; the third call raises. *)
Definition search (calls : nat) (_ : Map) (_ _ _ _ : Z)
    : outcome search_result * nat :=
  (if (calls =? 2)%nat then Raise (UserError "boom"%string) else Ok found_leaf,
   S calls).

(** A search function that answers every call with [r]. *)
Definition answer (r : search_result) (w : unit) (_ : Map) (_ _ _ _ : Z)
    : outcome search_result * unit :=
  (Ok r, w).

(** A goal node at (11, 20) with cost 36 and no recorded ancestors. *)
Definition goal_36 : Node :=
  {| node_i := 11; node_j := 20; g := PyInt 36; parent := None |}.

Definition found_36 : search_result :=
  {| found := true; end_node := Some 1%positive;
     number_of_steps := 200; search_tree_size := 250;
     other_results := []; tree := <[1%positive := goal_36]> ∅ |}.

Definition none_found : search_result :=
  {| found := false; end_node := None;
     number_of_steps := 300; search_tree_size := 300;
     other_results := []; tree := ∅ |}.

Definition start_state {W} (w : W) : state (World := W) :=
  {| world := w; log := [] |}.

End Demo.

(** ** Map texts *)

(** The lines of a map text that carry cells, as [convert_string_to_cells]
    computes them: spaces removed, split at line ends, blank lines dropped. *)
Definition cell_lines (cell_str : string) : list (list ascii) :=
  List.filter is_nonempty
    (split_on newline (remove_char space (list_ascii_of_string cell_str))).

(** A cell matrix written in the format of the map texts: one line per row,
    ["."] for 0 and ["#"] for anything else, a space after every cell. *)
Definition show_cell (c : Z) : ascii := if c =? 0 then "."%char else hash.

Definition show_cells (rows : list (list Z)) : string :=
  string_of_list_ascii
    (flat_map
       (fun row => flat_map (fun c => [show_cell c; space]) row ++ [newline])
       rows).

(** ** Stores without dangling references *)

(** Every [parent] reference of the store points to a node of the store, as
    in a running program, where a reference always has a target. *)
Definition closed_store (h : gmap addr Node) : Prop :=
  forall a nd p, h !! a = Some nd -> parent nd = Some p -> is_Some (h !! p).

(** Two nodes that are each other's parent. *)
Definition two_cycle : gmap addr Node :=
  <[2%positive := {| node_i := 0; node_j := 1; g := PyInt 1;
                     parent := Some 1%positive |}]>
    (<[1%positive := {| node_i := 0; node_j := 0; g := PyInt 0;
                        parent := Some 2%positive |}]> ∅).

(** ** Checking a reference length *)

Definition cell_eqb (a b : cell) : bool :=
  (fst a =? fst b) && (snd a =? snd b).

Definition label_is (lab : labelling) (c : cell) (d : nat) : bool :=
  match label_at lab c with
  | Some d' => Nat.eqb d' d
  | None => false
  end.

(** From [c] down the labels, one step at a time, to a cell labelled 0;
    the cells passed are put in front of [acc]. *)
Fixpoint descend (m : Map) (lab : labelling) (fuel : nat) (c : cell)
    (acc : list cell) : list cell :=
  match fuel with
  | O => c :: acc
  | S fuel' =>
    match label_at lab c with
    | Some (S d) =>
      match find (fun c' => traversable m (fst c') (snd c') && label_is lab c' d)
                 (neighbours c) with
      | Some c' => descend m lab fuel' c' (c :: acc)
      | None => c :: acc
      end
    | _ => c :: acc
    end
  end.

(** Checks a certificate that [n] is the cost of a cheapest path from [s]
    to [t]: a consistent labelling [lab] that gives 0 at [s] and [n] at
    [t], and a path [p] of cost [n] from [s] to [t]. *)
Definition certified (m : Map) (lab : labelling) (p : list cell)
    (s t : cell) (n : Z) : bool :=
  (0 <=? n) && consistent m lab && label_is lab s 0 &&
  label_is lab t (Z.to_nat n) &&
  match head p with Some c => cell_eqb c s | None => false end &&
  match last p with Some c => cell_eqb c t | None => false end &&
  all_traversable m p &&
  match path_cost p with Ok c => c =? n | _ => false end.

(** Checks a certificate that no path joins [s] and [t]: a consistent
    labelling that gives 0 at [s] and nothing at [t]. *)
Definition certified_unreachable (m : Map) (lab : labelling) (s t : cell)
    : bool :=
  consistent m lab && label_is lab s 0 &&
  match label_at lab t with Some _ => false | None => true end.

(** The tasks of the two fixed pools, and a candidate certificate for each,
    found by relaxation from the start and descent from the goal. *)
Definition simple_pool : list (cell * cell * Z) :=
  zip (zip simple_starts simple_goals) simple_lengths.

Definition not_found_pool : list (cell * cell) :=
  zip not_found_starts not_found_goals.

Definition simple_pool_certificates : list (labelling * list cell) :=
  Eval vm_compute in
    map (fun task : cell * cell * Z =>
           let lab := distances 64 simple_map (fst (fst task)) in
           (lab, descend simple_map lab 64 (snd (fst task)) []))
        simple_pool.

Definition not_found_pool_certificates : list labelling :=
  Eval vm_compute in
    map (fun task : cell * cell => distances 64 not_found_map (fst task))
        not_found_pool.

(** ** The image painted by [draw] *)

Definition color : Type := (Z * Z * Z)%type.

(** A rectangle as [ImageDraw.rectangle] takes it: the corners (x0, y0) and
    (x1, y1), both inside the rectangle. *)
Definition box : Type := (Z * Z * Z * Z)%type.

Definition covers (b : box) (x y : Z) : bool :=
  let '(x0, y0, x1, y1) := b in
  (x0 <=? x) && (x <=? x1) && (y0 <=? y) && (y <=? y1).

(** [draw_rectangle(draw, node, scale, color)]: the filled rectangle it
    asks for, from the position of the node. *)
Definition draw_rectangle (node : cell) (scale : Z) (c : color)
    : box * color :=
  ((snd node * scale, fst node * scale,
    (snd node + 1) * scale - 1, (fst node + 1) * scale - 1), c).

(** The rectangles that [draw] paints on its white image, in the order in
    which it paints them: blocked cells, the three optional node
    collections, the path, the start and the goal.  Nodes are given by
    their positions, the only thing [draw] reads of them. *)
Definition draw_image (grid_map : Map) (start goal : option cell)
    (path nodes_discovered nodes_expanded nodes_reexpanded
       : option (list cell)) : list (box * color) :=
  let scale := 5 in
  let '(height, width) := get_size grid_map in
  let blocked :=
    flat_map
      (fun i =>
         flat_map
           (fun j =>
              if negb (traversable grid_map i j) then
                [((j * scale, i * scale,
                   (j + 1) * scale - 1, (i + 1) * scale - 1), (70, 80, 80))]
              else [])
           (range width))
      (range height) in
  let node_colors :=
    [(nodes_discovered, (213, 219, 219));
     (nodes_expanded, (131, 145, 146));
     (nodes_reexpanded, (255, 145, 146))] in
  let overlays :=
    flat_map
      (fun nc : option (list cell) * color =>
         match fst nc with
         | Some nodes => map (fun node => draw_rectangle node scale (snd nc)) nodes
         | None => []
         end)
      node_colors in
  let steps :=
    match path with
    | Some path =>
      map (fun step =>
             draw_rectangle step scale
               (if traversable grid_map (fst step) (snd step)
                then (52, 152, 219) else (230, 126, 34)))
          path
    | None => []
    end in
  let start_mark :=
    match start with
    | Some start =>
      if traversable grid_map (fst start) (snd start)
      then [draw_rectangle start scale (40, 180, 99)] else []
    | None => []
    end in
  let goal_mark :=
    match goal with
    | Some goal =>
      if traversable grid_map (fst goal) (snd goal)
      then [draw_rectangle goal scale (231, 76, 60)] else []
    | None => []
    end in
  blocked ++ overlays ++ steps ++ start_mark ++ goal_mark.

Definition white : color := (255, 255, 255).

(** The colour of pixel (x, y) after the rectangles were painted one after
    the other on a white image. *)
Definition pixel (paints : list (box * color)) (x y : Z) : color :=
  fold_left (fun acc p => if covers (fst p) x y then snd p else acc)
            paints white.

(** ** Further concrete cases *)
Module Cases.

(** A found path reported together with four extra collections. *)
Definition found_with_four : search_result :=
  {| found := true; end_node := Some 2%positive;
     number_of_steps := 2; search_tree_size := 2;
     other_results := [[]; []; []; []]; tree := Demo.two_nodes |}.

Definition none_with_four : search_result :=
  {| found := false; end_node := None;
     number_of_steps := 2; search_tree_size := 2;
     other_results := [[]; []; []; []]; tree := ∅ |}.

(** [found] without a goal node. *)
Definition found_nothing : search_result :=
  {| found := true; end_node := None;
     number_of_steps := 1; search_tree_size := 1;
     other_results := []; tree := ∅ |}.

(** Answers [r'] when asked for a goal in row 14 and [r] otherwise. *)
Definition answer_by_goal (r r' : search_result) (w : unit) (_ : Map)
    (_ _ goal_i _ : Z) : outcome search_result * unit :=
  (Ok (if goal_i =? 14 then r' else r), w).

(** [float] that also reads ["nan"]. *)
Definition parse_float (t : string) : option num :=
  if String.eqb t (Demo.line "nan") then Some PyNaN else Demo.parse_float t.

(** The task file of [Demo] with ["nan"] as reference length. *)
Definition nan_file : list string :=
  map Demo.line ["1"; "2"; ". ."; "0"; "0"; "0"; "1"; "nan"]%string.

Definition nan_files (k : nat) : outcome (list string) := Ok nan_file.

End Cases.

(** * Properties *)

(** C2. [compute_cost] takes four integers and no map, so its answer cannot
    depend on traversability.  At Manhattan distance exactly 1 it returns 1;
    at every other offset (diagonal, distant, identical cells) it raises
    the invalid-move error (a [ValueError] carrying the "ONLY cardinal moves
    are supported" message) and returns no value. *)
Theorem compute_cost_cardinal_or_error (i1 j1 i2 j2 : Z) :
  (Z.abs (i1 - i2) + Z.abs (j1 - j2) = 1 /\
   compute_cost i1 j1 i2 j2 = Ok 1)
  \/
  (Z.abs (i1 - i2) + Z.abs (j1 - j2) <> 1 /\
   compute_cost i1 j1 i2 j2 = Raise InvalidMoveError /\
   forall v, compute_cost i1 j1 i2 j2 <> Ok v).
Proof.
  unfold compute_cost, InvalidMoveError.
  destruct (Z.eqb_spec (Z.abs (i1 - i2) + Z.abs (j1 - j2)) 1) as [Heq | Hne].
  - left. split; [exact Heq | reflexivity].
  - right. repeat split; [exact Hne | discriminate].
Qed.

(** ** Path reconstruction *)

Lemma last_rev_head {A} (l : list A) : last (rev l) = head l.
Proof.
  destruct l as [| x l]; [reflexivity |]. simpl. apply last_snoc.
Qed.

Lemma follows_snoc h prev path a :
  follows h prev path ->
  (exists nd, h !! a = Some nd /\ parent nd = Some (default prev (last path))) ->
  follows h prev (path ++ [a]).
Proof.
  revert prev. induction path as [| b rest IH]; intros prev Hf Ha.
  - split; [exact Ha | exact I].
  - destruct Hf as [Hb Hrest]. split; [exact Hb |].
    apply IH; [exact Hrest |].
    rewrite last_cons in Ha.
    destruct (last rest) as [y |]; exact Ha.
Qed.

Lemma root_first_snoc h path p a nd :
  root_first h path -> last path = Some p ->
  h !! a = Some nd -> parent nd = Some p ->
  root_first h (path ++ [a]).
Proof.
  destruct path as [| r rest]; simpl; [intros [] |].
  intros [Hr Hf] Hlast Ha Hp. split; [exact Hr |].
  apply follows_snoc; [exact Hf |].
  exists nd. split; [exact Ha |].
  destruct rest as [| c rest']; simpl in *.
  - injection Hlast as <-. exact Hp.
  - rewrite Hlast. exact Hp.
Qed.

(** With more fuel than the chain is deep, the loop ends and has appended
    the goal, its parent, ..., the root, in that order. *)
Lemma trace_parents_chain h a k :
  chain_depth h a k ->
  forall fuel acc, (k < fuel)%nat ->
  exists chain,
    trace_parents fuel h a acc = Ok (acc ++ chain) /\
    length chain = S k /\ head chain = Some a /\ root_first h (rev chain).
Proof.
  induction 1 as [a nd Ha Hp | a nd p k Ha Hp Hchain IH]; intros fuel acc Hlt.
  - destruct fuel as [| fuel']; [lia |]. simpl. rewrite Ha, Hp.
    exists [a]. repeat split; simpl; eauto.
  - destruct fuel as [| fuel']; [lia |]. simpl. rewrite Ha, Hp.
    destruct (IH fuel' (acc ++ [a])) as (chain & Hrun & Hlen & Hhd & Hroot);
      [lia |].
    exists (a :: chain). rewrite Hrun, <- app_assoc. simpl.
    repeat split; [congruence |].
    apply root_first_snoc with (p := p) (nd := nd); try assumption.
    rewrite last_rev_head. exact Hhd.
Qed.

Lemma make_path_chain h n k nd fuel :
  chain_depth h n k -> (k < fuel)%nat -> h !! n = Some nd ->
  exists path,
    make_path fuel h (Some n) = Ok (path, g nd) /\
    length path = S k /\ last path = Some n /\ root_first h path.
Proof.
  intros Hchain Hlt Hn.
  destruct (trace_parents_chain h n k Hchain fuel [] Hlt)
    as (chain & Hrun & Hlen & Hhd & Hroot).
  exists (rev chain). unfold make_path. rewrite Hn. simpl in *. rewrite Hrun.
  simpl. repeat split.
  - rewrite length_rev. exact Hlen.
  - rewrite last_rev_head. exact Hhd.
  - exact Hroot.
Qed.

(** Without a root the loop never ends: on a node that is its own parent
    no amount of fuel suffices. *)
Lemma make_path_self_parent_diverges h a nd fuel :
  h !! a = Some nd -> parent nd = Some a ->
  make_path fuel h (Some a) = Diverge.
Proof.
  intros Ha Hp. unfold make_path. rewrite Ha.
  assert (Hloop : forall acc, trace_parents fuel h a acc = Diverge).
  { induction fuel as [| fuel' IH]; intros acc; simpl; [reflexivity |].
    rewrite Ha, Hp. apply IH. }
  rewrite Hloop. reflexivity.
Qed.

Lemma chain_depth_node h n k :
  chain_depth h n k -> exists nd, h !! n = Some nd.
Proof. destruct 1; eauto. Qed.

(** C3. For a goal node whose parent chain reaches a root after [k] links,
    [make_path] terminates (any fuel above [k] suffices) and returns exactly
    [k + 1] nodes, root first, each later node a child of the one before it,
    the last one the goal itself; the sequence is not empty, also for
    [k = 0], and its first element has no parent. *)
Theorem make_path_root_first (h : gmap addr Node) (n : addr) (k fuel : nat) :
  chain_depth h n k -> (k < fuel)%nat ->
  exists path total,
    make_path fuel h (Some n) = Ok (path, total) /\
    length path = S k /\
    last path = Some n /\
    root_first h path /\
    path <> [] /\
    (exists r nd, head path = Some r /\ h !! r = Some nd /\ parent nd = None).
Proof.
  intros Hchain Hlt.
  destruct (chain_depth_node h n k Hchain) as [nd Hn].
  destruct (make_path_chain h n k nd fuel Hchain Hlt Hn)
    as (path & Hrun & Hlen & Hlast & Hroot).
  exists path, (g nd). repeat split; try assumption.
  - intros ->. discriminate Hlen.
  - destruct path as [| r rest]; [destruct Hroot |].
    destruct Hroot as [(rd & Hr & Hp) _]. exists r, rd. auto.
Qed.

(** C4. The total returned by [make_path] is the goal node's own [g],
    whatever the [g] of its ancestors; a goal without parent gives the
    one-element path holding just that node, with total its [g]. *)
Theorem make_path_total_is_goal_g (h : gmap addr Node) (n : addr) (nd : Node)
    (k fuel : nat) :
  chain_depth h n k -> (k < fuel)%nat -> h !! n = Some nd ->
  exists path,
    make_path fuel h (Some n) = Ok (path, g nd) /\
    (parent nd = None -> path = [n]).
Proof.
  intros Hchain Hlt Hn.
  destruct (make_path_chain h n k nd fuel Hchain Hlt Hn)
    as (path & Hrun & Hlen & Hlast & Hroot).
  exists path. split; [exact Hrun |].
  intros Hp. inversion Hchain as [a nd' Ha Hp' | a nd' p k' Ha Hp' Hrest]; subst.
  - destruct path as [| x [| y rest]]; simpl in *; try discriminate.
    congruence.
  - rewrite Hn in Ha. injection Ha as <-. congruence.
Qed.

Lemma make_path_root_first_witness :
  exists path total,
    make_path 2 Demo.two_nodes (Some 2%positive) = Ok (path, total) /\
    length path = 2%nat /\
    last path = Some 2%positive /\
    root_first Demo.two_nodes path /\
    path <> [] /\
    (exists r nd, head path = Some r /\ Demo.two_nodes !! r = Some nd /\
                  parent nd = None).
Proof.
  apply (make_path_root_first Demo.two_nodes 2%positive 1 2).
  - apply chain_link with (nd := Demo.leaf) (p := 1%positive);
      [reflexivity | reflexivity |].
    apply chain_root with (nd := Demo.root); reflexivity.
  - lia.
Defined.

Lemma make_path_total_is_goal_g_witness :
  exists path,
    make_path 1 Demo.two_nodes (Some 1%positive) = Ok (path, PyInt 0) /\
    (parent Demo.root = None -> path = [1%positive]).
Proof.
  apply (make_path_total_is_goal_g Demo.two_nodes 1%positive Demo.root 0 1).
  - apply chain_root with (nd := Demo.root); reflexivity.
  - lia.
  - reflexivity.
Defined.

(** ** The batch runner *)

Lemma py_int_returns x : py_int x <> Diverge.
Proof. destruct x; discriminate. Qed.

Lemma count_calls_app evs evs' :
  count_calls (evs ++ evs') = (count_calls evs + count_calls evs')%nat.
Proof. unfold count_calls. rewrite List.filter_app, length_app. reflexivity. Qed.

Lemma count_errors_app evs evs' :
  count_errors (evs ++ evs') = (count_errors evs + count_errors evs')%nat.
Proof. unfold count_errors. rewrite List.filter_app, length_app. reflexivity. Qed.

Lemma reported_app evs evs' :
  reported (evs ++ evs') = reported evs ++ reported evs'.
Proof.
  induction evs as [| ev evs IH]; [reflexivity |].
  destruct ev as [| | r]; simpl; try exact IH.
  destruct r; simpl; rewrite ?IH; reflexivity.
Qed.

(** What a run of iterations adds up to: one call per task; per task either
    one caught exception or one entry in each sequence; the entries are the
    reported ones, in task order. *)
Lemma batch_steps_summary ks st evs st' :
  batch_steps ks st evs st' ->
  count_calls evs = length ks /\
  (length (corr st') + count_errors evs = length (corr st) + length ks)%nat /\
  (length (len st') + count_errors evs = length (len st) + length ks)%nat /\
  (length (st_size st') + count_errors evs
   = length (st_size st) + length ks)%nat /\
  (length (steps st') + count_errors evs = length (steps st) + length ks)%nat /\
  corr st' = corr st ++ map snd (reported evs) /\
  len st' = len st ++ map (fun e => snd (fst e)) (reported evs) /\
  sublist (map (fun e => fst (fst e)) (reported evs)) ks.
Proof.
  induction 1 as [st | k ks st evs st' evs' st'' Hstep Hrest IH].
  - simpl. rewrite !app_nil_r. repeat split; try lia. constructor.
  - destruct IH as (Hc & H1 & H2 & H3 & H4 & Hcorr & Hlen & Hsub).
    rewrite count_calls_app, count_errors_app, reported_app, !map_app.
    destruct Hstep; simpl in *; rewrite ?length_app in *; simpl in *;
      (repeat split; try lia;
       try (rewrite Hcorr, <- ?app_assoc; reflexivity);
       try (rewrite Hlen, <- ?app_assoc; reflexivity));
      first [ apply sublist_cons; exact Hsub | apply sublist_skip; exact Hsub ].
Qed.

Section BatchProperties.

Context {World : Type}.
Variable search_function :
  World -> Map -> Z -> Z -> Z -> Z -> outcome search_result * World.
Variable parse_int : string -> option Z.
Variable parse_float : string -> option num.
Variable files : nat -> outcome (list string).

Abbreviation task_run := (run_task search_function parse_int parse_float files).
Abbreviation batch_loop :=
  (massive_loop search_function parse_int parse_float files).
Abbreviation batch :=
  (massive_test search_function parse_int parse_float files).
Abbreviation read_task := (read_task_from_file parse_int parse_float).

(** One iteration on a readable task file ends normally, whatever the
    search function does short of running forever. *)
Lemma run_task_step fuel k st s t :
  returns_or_raises search_function fuel ->
  read_task (files k) = Ok t ->
  exists evs st' w',
    task_run fuel k st s = (Ok st', {| world := w'; log := log s ++ evs |}) /\
    task_step k st evs st'.
Proof.
  intros Hterm Hread.
  destruct t as [[[[[cells0 si] sj] gi] gj] expected].
  unfold run_task, bind, lift. rewrite Hread.
  unfold try_except, evaluate_task, bind, call_search.
  specialize (Hterm (world s) (mkMap cells0) si sj gi gj).
  destruct (search_function (world s) (mkMap cells0) si sj gi gj)
    as [[r | e |] w]; simpl in Hterm; [| | contradiction].
  - unfold record_outcome, bind, lift, print, emit, ret.
    destruct (found r).
    + specialize (Hterm eq_refl).
      destruct (make_path fuel (tree r) (end_node r))
        as [[path path_length] | e |]; [| | congruence].
      * pose proof (py_int_returns path_length) as Hpl.
        pose proof (py_int_returns expected) as Hex.
        destruct (py_int path_length) as [a | e |]; [| | congruence].
        -- destruct (py_int expected) as [b | e |]; [| | congruence];
             simpl; rewrite <- ?app_assoc; simpl;
             eexists _, _, _; (split; [reflexivity | constructor]).
        -- simpl. rewrite <- ?app_assoc. simpl.
           eexists _, _, _. split; [reflexivity | constructor].
      * simpl. rewrite <- ?app_assoc. simpl.
        eexists _, _, _. split; [reflexivity | constructor].
    + simpl. rewrite <- ?app_assoc. simpl.
      eexists _, _, _. split; [reflexivity | constructor].
  - unfold print, emit, ret. simpl. rewrite <- ?app_assoc. simpl.
    eexists _, _, _. split; [reflexivity | constructor].
Qed.

Lemma massive_loop_steps fuel tasks :
  returns_or_raises search_function fuel ->
  (forall k, In k tasks -> exists t, read_task (files k) = Ok t) ->
  forall st s,
  exists evs st' w',
    batch_loop fuel tasks st s
    = (Ok st', {| world := w'; log := log s ++ evs |}) /\
    batch_steps tasks st evs st'.
Proof.
  intros Hterm. induction tasks as [| k rest IH]; intros Hread st s.
  - exists [], st, (world s). rewrite app_nil_r. destruct s.
    split; [reflexivity | constructor].
  - destruct (Hread k (or_introl eq_refl)) as [t Ht].
    destruct (run_task_step fuel k st s t Hterm Ht)
      as (evs & st1 & w1 & Hrun & Hstep).
    destruct (IH (fun j Hj => Hread j (or_intror Hj)) st1
                 {| world := w1; log := log s ++ evs |})
      as (evs' & st2 & w2 & Hloop & Hbatch).
    exists (evs ++ evs'), st2, w2. split.
    + simpl. unfold bind at 1. rewrite Hrun, Hloop. simpl.
      rewrite <- app_assoc. reflexivity.
    + econstructor; eassumption.
Qed.

Lemma massive_loop_app fuel l1 l2 st s :
  batch_loop fuel (l1 ++ l2) st s
  = bind (batch_loop fuel l1 st) (batch_loop fuel l2) s.
Proof.
  revert st s. induction l1 as [| k l1 IH]; intros st s; [reflexivity |].
  simpl. unfold bind in *.
  destruct (task_run fuel k st s) as [[st1 | e |] s1]; try reflexivity.
  rewrite IH. reflexivity.
Qed.

(** One iteration on a readable task file, with the outcome of the search
    call it makes. *)
Lemma run_task_result fuel k st s cells0 si sj gi gj expected :
  returns_or_raises search_function fuel ->
  read_task (files k) = Ok (cells0, si, sj, gi, gj, expected) ->
  exists res w' rep st',
    search_function (world s) (mkMap cells0) si sj gi gj = (res, w') /\
    task_result fuel k expected st res rep st' /\
    task_run fuel k st s
    = (Ok st',
       {| world := w';
          log := log s ++ [Called (mkMap cells0) si sj gi gj; Printed rep] |}).
Proof.
  intros Hterm Hread.
  unfold run_task, bind, lift. rewrite Hread.
  unfold try_except, evaluate_task, bind, call_search.
  specialize (Hterm (world s) (mkMap cells0) si sj gi gj).
  destruct (search_function (world s) (mkMap cells0) si sj gi gj)
    as [[r | e |] w]; simpl in Hterm; [| | contradiction].
  - unfold record_outcome, bind, lift, print, emit, ret.
    destruct (found r) eqn:Hfound.
    + specialize (Hterm eq_refl).
      destruct (make_path fuel (tree r) (end_node r))
        as [[path path_length] | e |] eqn:Hpath; [| | congruence].
      * pose proof (py_int_returns path_length) as Hpl.
        pose proof (py_int_returns expected) as Hex.
        destruct (py_int path_length) as [a | e |] eqn:Ha; [| | congruence].
        -- destruct (py_int expected) as [b | e |] eqn:Hb; [| | congruence];
             simpl; rewrite <- ?app_assoc; simpl;
             eexists _, _, _, _;
             (split; [reflexivity |]); (split; [| reflexivity]).
           ++ eapply search_found_path; eassumption.
           ++ apply search_result_unusable; [exact Hfound |].
              right. exists path, path_length. split; [exact Hpath |].
              right. exists a. auto.
        -- simpl. rewrite <- ?app_assoc. simpl.
           eexists _, _, _, _.
           split; [reflexivity |]. split; [| reflexivity].
           apply search_result_unusable; [exact Hfound |].
           right. exists path, path_length. auto.
      * simpl. rewrite <- ?app_assoc. simpl.
        eexists _, _, _, _.
        split; [reflexivity |]. split; [| reflexivity].
        apply search_result_unusable; [exact Hfound |]. left. exact Hpath.
    + simpl. rewrite <- ?app_assoc. simpl.
      eexists _, _, _, _.
      split; [reflexivity |]. split; [| reflexivity].
      apply search_found_nothing. exact Hfound.
  - unfold print, emit, ret. simpl. rewrite <- ?app_assoc. simpl.
    eexists _, _, _, _.
    split; [reflexivity |]. split; [| reflexivity].
    apply search_raised.
Qed.

Lemma massive_loop_run fuel tasks :
  returns_or_raises search_function fuel ->
  (forall k, In k tasks -> exists t, read_task (files k) = Ok t) ->
  forall st s,
  exists evs st' w',
    batch_loop fuel tasks st s
    = (Ok st', {| world := w'; log := log s ++ evs |}) /\
    batch_run search_function parse_int parse_float files
              fuel tasks (world s) st evs w' st'.
Proof.
  intros Hterm. induction tasks as [| k rest IH]; intros Hread st s.
  - exists [], st, (world s). rewrite app_nil_r. destruct s.
    split; [reflexivity | constructor].
  - destruct (Hread k (or_introl eq_refl))
      as [[[[[[cells0 si] sj] gi] gj] expected] Ht].
    destruct (run_task_result fuel k st s _ _ _ _ _ _ Hterm Ht)
      as (res & w1 & rep & st1 & Hcall & Hres & Hrun).
    destruct (IH (fun j Hj => Hread j (or_intror Hj)) st1
                 {| world := w1;
                    log := log s ++ [Called (mkMap cells0) si sj gi gj;
                                     Printed rep] |})
      as (evs' & st2 & w2 & Hloop & Hbatch).
    exists (Called (mkMap cells0) si sj gi gj :: Printed rep :: evs'), st2, w2.
    split.
    + simpl. unfold bind at 1. rewrite Hrun, Hloop. simpl.
      rewrite <- app_assoc. reflexivity.
    + econstructor; eassumption.
Qed.

Lemma batch_run_steps fuel tasks w st evs w' st' :
  batch_run search_function parse_int parse_float files
            fuel tasks w st evs w' st' ->
  batch_steps tasks st evs st'.
Proof.
  induction 1 as [| k ks w st cells0 si sj gi gj expected res w' rep st' evs
                    w'' st'' _ _ Hres _ IH]; [constructor |].
  change (Called (mkMap cells0) si sj gi gj :: Printed rep :: evs)
    with ([Called (mkMap cells0) si sj gi gj; Printed rep] ++ evs).
  econstructor; [| exact IH].
  destruct Hres; constructor.
Qed.

(** C1 (amended). In a batch of [n > 0] readable tasks the search function
    is called once per task, in task order, on the map, start and goal read
    from that task's file, whether or not earlier calls raised.  When the
    call for a task raises, the exception is caught, an execution error is
    reported in place of a result, and the statistics stay as they were:
    the task gets no entry (no not-found entry, no length 0.0).  When the
    call returns, the task is reported and gets one entry in each sequence
    (unless the reported path cannot be reconstructed or compared, which
    is handled like a raising call).  After the batch the four sequences
    have the same number of entries: [n] less the number of caught
    exceptions, and they are the entries of the reported tasks in task
    order. *)
Theorem massive_test_records_completed_tasks (fuel : nat) (n : Z) (s : state) :
  0 < n ->
  readable parse_int parse_float files (Z.to_nat n) ->
  returns_or_raises search_function fuel ->
  exists st evs w',
    batch fuel (Some n) s
    = (Ok st, {| world := w'; log := log s ++ evs |}) /\
    batch_run search_function parse_int parse_float files
              fuel (seq 0 (Z.to_nat n)) (world s) empty_stat evs w' st /\
    count_calls evs = Z.to_nat n /\
    (count_errors evs <= Z.to_nat n)%nat /\
    length (corr st) = (Z.to_nat n - count_errors evs)%nat /\
    length (len st) = (Z.to_nat n - count_errors evs)%nat /\
    length (st_size st) = (Z.to_nat n - count_errors evs)%nat /\
    length (steps st) = (Z.to_nat n - count_errors evs)%nat /\
    corr st = map snd (reported evs) /\
    len st = map (fun e => snd (fst e)) (reported evs) /\
    sublist (map (fun e => fst (fst e)) (reported evs)) (seq 0 (Z.to_nat n)).
Proof.
  intros Hn Hread Hterm.
  destruct (massive_loop_run fuel (seq 0 (Z.to_nat n)) Hterm) with
    (st := empty_stat) (s := s) as (evs & st & w' & Hrun & Hbatch).
  { intros k Hk. apply Hread. apply in_seq in Hk. lia. }
  exists st, evs, w'.
  unfold massive_test.
  destruct (Z.leb_spec n 0) as [Hle | _]; [lia |].
  split; [exact Hrun |]. split; [exact Hbatch |].
  apply batch_run_steps, batch_steps_summary in Hbatch.
  rewrite length_seq in Hbatch. simpl in Hbatch.
  destruct Hbatch as (Hc & H1 & H2 & H3 & H4 & Hcorr & Hlen & Hsub).
  repeat split; try assumption; lia.
Qed.

(** C5. When [num_of_tasks] is [None], zero or negative, [massive_test]
    prints the rejection message and returns the empty statistics; it does
    not raise, calls the search function on no task, and leaves everything
    else as it was. *)
Theorem massive_test_rejects_count (fuel : nat) (num_of_tasks : option Z)
    (s : state) :
  rejected_count num_of_tasks ->
  batch fuel num_of_tasks s
  = (Ok {| corr := []; len := []; st_size := []; steps := [] |},
     {| world := world s; log := log s ++ [Printed TestingHalted] |}).
Proof.
  unfold rejected_count, massive_test. intros Hrej.
  destruct num_of_tasks as [n |]; [| reflexivity].
  destruct (Z.leb_spec n 0) as [_ | Hlt]; [reflexivity | lia].
Qed.

(** How reading a task file fails: a file that cannot be opened, a file
    that ends before all fields are read, a field that is not a number. *)
Lemma read_task_failures :
  (forall e, read_task (Raise e) = Raise e) /\
  read_task (Ok []) = Raise StopIteration /\
  (forall t rest,
     parse_int t = None ->
     read_task (Ok (t :: rest))
     = Raise (ValueError "invalid literal for int()"%string)) /\
  (forall t, parse_int t <> None ->
     read_task (Ok [t]) = Raise StopIteration).
Proof.
  repeat split; try reflexivity.
  - intros t rest Ht. unfold read_task_from_file, next, int_of_text. simpl.
    rewrite Ht. reflexivity.
  - intros t Ht. unfold read_task_from_file, next, int_of_text. simpl.
    destruct (parse_int t); [reflexivity | congruence].
Qed.

(** C7. [read_task_from_file] is called outside the [try]: when reading the
    file of task [k] raises, after the tasks before it were read and
    evaluated, [massive_test] itself raises that exception; no statistics
    are returned, and the log holds the calls and reports of the [k]
    earlier tasks and nothing else: the exception is not reported as an
    execution error and no later task is evaluated. *)
Theorem massive_test_read_error_propagates (fuel : nat) (n : Z) (k : nat)
    (e : exn) (s : state) :
  (k < Z.to_nat n)%nat ->
  readable parse_int parse_float files k ->
  returns_or_raises search_function fuel ->
  read_task (files k) = Raise e ->
  exists evs w',
    batch fuel (Some n) s
    = (Raise e, {| world := w'; log := log s ++ evs |}) /\
    count_calls evs = k /\
    exists st, batch_steps (seq 0 k) empty_stat evs st.
Proof.
  intros Hk Hread Hterm Hraise.
  unfold massive_test.
  destruct (Z.leb_spec n 0) as [Hle | _]; [lia |].
  replace (Z.to_nat n) with (k + S (Z.to_nat n - S k))%nat by lia.
  rewrite seq_app. simpl seq. rewrite massive_loop_app.
  destruct (massive_loop_steps fuel (seq 0 k) Hterm) with
    (st := empty_stat) (s := s) as (evs & st & w' & Hrun & Hbatch).
  { intros j Hj. apply Hread. apply in_seq in Hj. lia. }
  exists evs, w'. unfold bind at 1. rewrite Hrun.
  simpl. unfold bind at 1. unfold run_task at 1.
  unfold bind at 1. unfold lift at 1. rewrite Hraise.
  split; [reflexivity |].
  pose proof (batch_steps_summary _ _ _ _ Hbatch) as (Hc & _).
  rewrite length_seq in Hc. split; [exact Hc |].
  exists st. exact Hbatch.
Qed.

End BatchProperties.

(** *** The batch runner on the concrete setting *)

Lemma massive_test_records_completed_tasks_witness :
  exists st evs w',
    massive_test Demo.search Demo.parse_int Demo.parse_float Demo.files
                 3 (Some 5) (Demo.start_state 0%nat)
    = (Ok st, {| world := w'; log := [] ++ evs |}) /\
    batch_run Demo.search Demo.parse_int Demo.parse_float Demo.files
              3 (seq 0 (Z.to_nat 5)) 0%nat empty_stat evs w' st /\
    count_calls evs = 5%nat /\
    length (corr st) = (5 - count_errors evs)%nat.
Proof.
  destruct (massive_test_records_completed_tasks
              Demo.search Demo.parse_int Demo.parse_float Demo.files
              3 5 (Demo.start_state 0%nat))
    as (st & evs & w' & Hrun & Hbatch & Hcalls & _ & Hcorr & _).
  - lia.
  - intros k _. exists Demo.the_task. vm_compute. reflexivity.
  - intros w m a b c d. unfold Demo.search. simpl.
    destruct (w =? 2)%nat; [exact I |].
    intros _. vm_compute. discriminate.
  - exists st, evs, w'. split; [exact Hrun |]. split; [exact Hbatch |].
    split; [exact Hcalls | exact Hcorr].
Defined.

(** C1 as stated fails: in a batch of 5 tasks whose third search call
    raises, the exception is caught and the other four tasks are evaluated,
    but task 2 gets no entry at all (no not-found entry, no length 0.0), so
    every sequence has 4 entries, not 5. *)
Lemma massive_test_drops_failed_task :
  exists st s',
    massive_test Demo.search Demo.parse_int Demo.parse_float Demo.files
                 3 (Some 5) (Demo.start_state 0%nat) = (Ok st, s') /\
    count_calls (log s') = 5%nat /\
    count_errors (log s') = 1%nat /\
    map (fun e => fst (fst e)) (reported (log s')) = [0; 1; 3; 4]%nat /\
    corr st = [true; true; true; true] /\
    len st = [PyInt 1; PyInt 1; PyInt 1; PyInt 1] /\
    st_size st = [2; 2; 2; 2] /\
    steps st = [2; 2; 2; 2] /\
    length (corr st) <> 5%nat /\ length (len st) <> 5%nat /\
    length (st_size st) <> 5%nat /\ length (steps st) <> 5%nat.
Proof.
  eexists _, _. split; [vm_compute; reflexivity |].
  vm_compute. repeat split; discriminate.
Qed.

Lemma massive_test_rejects_count_witness :
  rejected_count (Some 0) /\
  massive_test Demo.search Demo.parse_int Demo.parse_float Demo.files
               3 (Some 0) (Demo.start_state 0%nat)
  = (Ok {| corr := []; len := []; st_size := []; steps := [] |},
     {| world := 0%nat; log := [Printed TestingHalted] |}).
Proof.
  assert (H : rejected_count (Some 0)) by (simpl; lia).
  split; [exact H |].
  apply (massive_test_rejects_count
           Demo.search Demo.parse_int Demo.parse_float Demo.files
           3 (Some 0) (Demo.start_state 0%nat) H).
Defined.

Lemma massive_test_read_error_propagates_witness :
  read_task_from_file Demo.parse_int Demo.parse_float (Demo.files_without_2 2)
  = Raise FileNotFoundError /\
  exists evs w',
    massive_test Demo.search Demo.parse_int Demo.parse_float
                 Demo.files_without_2 3 (Some 5) (Demo.start_state 0%nat)
    = (Raise FileNotFoundError, {| world := w'; log := [] ++ evs |}) /\
    count_calls evs = 2%nat.
Proof.
  split; [reflexivity |].
  destruct (massive_test_read_error_propagates
              Demo.search Demo.parse_int Demo.parse_float Demo.files_without_2
              3 5 2 FileNotFoundError (Demo.start_state 0%nat))
    as (evs & w' & Hrun & Hcalls & _).
  - vm_compute. lia.
  - intros k Hk. exists Demo.the_task.
    destruct k as [| [| k]]; [vm_compute; reflexivity .. | lia].
  - intros w m a b c d. unfold Demo.search. simpl.
    destruct (w =? 2)%nat; [exact I |].
    intros _. vm_compute. discriminate.
  - reflexivity.
  - exists evs, w'. split; [exact Hrun | exact Hcalls].
Defined.

(** ** The single-task runners *)

Lemma simple_cells_converted :
  convert_string_to_cells simple_map_str = Ok simple_cells.
Proof. vm_compute. reflexivity. Qed.

Lemma not_found_cells_converted :
  convert_string_to_cells not_found_map_str = Ok not_found_cells.
Proof. vm_compute. reflexivity. Qed.

Lemma py_index_in_range {A} (xs : list A) (k : Z) :
  0 <= k < Z.of_nat (length xs) -> exists x, py_index xs k = Ok x.
Proof.
  intros Hk. unfold py_index.
  destruct (Z.ltb_spec k 0) as [Hneg | _]; [lia |].
  destruct (Z.leb_spec 0 k) as [_ | Hneg]; [| lia].
  destruct (Z.ltb_spec k (Z.of_nat (length xs))) as [_ | Hge]; [| lia].
  simpl. destruct (lookup_lt_is_Some_2 xs (Z.to_nat k)) as [x Hx]; [lia |].
  rewrite Hx. eauto.
Qed.

Lemma choose_task_in_range pool task drawn :
  0 <= drawn < pool -> 0 <= choose_task pool task drawn < pool.
Proof.
  intros Hd. unfold choose_task. destruct task as [t |]; [| exact Hd].
  destruct (Z.leb_spec 0 t), (Z.ltb_spec t pool); simpl; lia.
Qed.

Lemma choose_task_valid pool t drawn :
  0 <= t < pool -> choose_task pool (Some t) drawn = t.
Proof.
  intros Ht. unfold choose_task.
  destruct (Z.leb_spec 0 t), (Z.ltb_spec t pool); simpl; lia.
Qed.

(** [simple_test] on a valid task index when the search function reports a
    path that can be reconstructed and drawn. *)
Lemma simple_test_found_run {World : Type}
    (search_function :
       World -> Map -> Z -> Z -> Z -> Z -> outcome search_result * World)
    (fuel : nat) (r : search_result) (path : list addr) (path_length : num)
    (a t drawn : Z) (start goal : Z * Z) (length0 : Z) (s : state) (w : World) :
  0 <= t < 25 ->
  py_index simple_starts t = Ok start ->
  py_index simple_goals t = Ok goal ->
  py_index simple_lengths t = Ok length0 ->
  search_function (world s) simple_map (fst start) (snd start)
                  (fst goal) (snd goal) = (Ok r, w) ->
  found r = true ->
  make_path fuel (tree r) (end_node r) = Ok (path, path_length) ->
  py_int path_length = Ok a ->
  (length (other_results r) <= 3)%nat ->
  simple_test search_function fuel (Some t) drawn s
  = (Ok tt,
     {| world := w;
        log := log s ++
               [Called simple_map (fst start) (snd start) (fst goal) (snd goal);
                Drawn simple_map start goal (Some path) (other_results r);
                Printed (PathFound path_length (search_tree_size r)
                                   (number_of_steps r) (a =? length0))] |}).
Proof.
  intros Ht Hstart Hgoal Hlen Hcall Hfound Hpath Ha Hover.
  unfold simple_test, get_map_data, bind, lift, ret.
  rewrite simple_cells_converted, (choose_task_valid 25 t drawn Ht).
  rewrite Hstart, Hgoal, Hlen.
  unfold try_except, bind, call_search. fold simple_map. rewrite Hcall.
  unfold lift. rewrite Hfound, Hpath, Ha. simpl py_int. cbv iota beta.
  unfold draw.
  destruct (Nat.ltb_spec 3 (length (other_results r))) as [Hgt | _]; [lia |].
  unfold print, emit. simpl. rewrite <- !app_assoc. reflexivity.
Qed.

(** [simple_test_not_found] on a valid task index when the search function
    reports that there is no path. *)
Lemma simple_test_not_found_run {World : Type}
    (search_function :
       World -> Map -> Z -> Z -> Z -> Z -> outcome search_result * World)
    (fuel : nat) (r : search_result) (t drawn : Z) (start goal : Z * Z)
    (s : state) (w : World) :
  0 <= t < 2 ->
  py_index not_found_starts t = Ok start ->
  py_index not_found_goals t = Ok goal ->
  search_function (world s) not_found_map (fst start) (snd start)
                  (fst goal) (snd goal) = (Ok r, w) ->
  found r = false ->
  (length (other_results r) <= 3)%nat ->
  simple_test_not_found search_function fuel (Some t) drawn s
  = (Ok tt,
     {| world := w;
        log := log s ++
               [Called not_found_map (fst start) (snd start)
                       (fst goal) (snd goal);
                Drawn not_found_map start goal None (other_results r);
                Printed (NoPathConfirmed (search_tree_size r)
                                         (number_of_steps r))] |}).
Proof.
  intros Ht Hstart Hgoal Hcall Hfound Hover.
  unfold simple_test_not_found, get_map_data, bind, lift, ret.
  rewrite not_found_cells_converted, (choose_task_valid 2 t drawn Ht).
  rewrite Hstart, Hgoal.
  unfold try_except, bind, call_search. fold not_found_map. rewrite Hcall.
  rewrite Hfound. cbv iota beta. simpl negb. cbv iota.
  unfold draw.
  destruct (Nat.ltb_spec 3 (length (other_results r))) as [Hgt | _]; [lia |].
  unfold print, emit. simpl. rewrite <- !app_assoc. reflexivity.
Qed.

(** C6. Whenever the search function reports [found] and the path is
    reconstructed, the correctness flag is the comparison of the two
    lengths after [int] truncation: [massive_test] appends it to ["corr"]
    and [simple_test] prints it, and it is true exactly when the truncated
    values are equal. *)
Theorem correct_flag_compares_truncations {World : Type}
    (search_function :
       World -> Map -> Z -> Z -> Z -> Z -> outcome search_result * World)
    (parse_int : string -> option Z) (parse_float : string -> option num)
    (files : nat -> outcome (list string))
    (fuel : nat) (r : search_result) (path : list addr) (path_length : num)
    (a : Z)
    (k : nat) (cells0 : list (list Z)) (start_i start_j goal_i goal_j : Z)
    (expected : num) (b : Z) (st : stat) (s : state) (w : World)
    (t drawn : Z) (start goal : Z * Z) (length0 : Z) (s1 : state) (w1 : World) :
  found r = true ->
  make_path fuel (tree r) (end_node r) = Ok (path, path_length) ->
  py_int path_length = Ok a ->
  read_task_from_file parse_int parse_float (files k)
  = Ok (cells0, start_i, start_j, goal_i, goal_j, expected) ->
  py_int expected = Ok b ->
  search_function (world s) (mkMap cells0) start_i start_j goal_i goal_j
  = (Ok r, w) ->
  0 <= t < 25 ->
  py_index simple_starts t = Ok start ->
  py_index simple_goals t = Ok goal ->
  py_index simple_lengths t = Ok length0 ->
  search_function (world s1) simple_map (fst start) (snd start)
                  (fst goal) (snd goal) = (Ok r, w1) ->
  (length (other_results r) <= 3)%nat ->
  (run_task search_function parse_int parse_float files fuel k st s
   = (Ok {| corr := corr st ++ [a =? b];
            len := len st ++ [path_length];
            st_size := st_size st ++ [search_tree_size r];
            steps := steps st ++ [number_of_steps r] |},
      {| world := w;
         log := log s ++
                [Called (mkMap cells0) start_i start_j goal_i goal_j;
                 Printed (TaskPathFound k path_length (search_tree_size r)
                                        (number_of_steps r) (a =? b))] |})
   /\ ((a =? b) = true <-> a = b))
  /\
  (simple_test search_function fuel (Some t) drawn s1
   = (Ok tt,
      {| world := w1;
         log := log s1 ++
                [Called simple_map (fst start) (snd start) (fst goal) (snd goal);
                 Drawn simple_map start goal (Some path) (other_results r);
                 Printed (PathFound path_length (search_tree_size r)
                                    (number_of_steps r) (a =? length0))] |})
   /\ ((a =? length0) = true <-> a = length0)).
Proof.
  intros Hfound Hpath Ha Hread Hb Hcall Ht Hstart Hgoal Hlen Hcall1 Hover.
  split; split; try apply Z.eqb_eq.
  - unfold run_task, bind, lift. rewrite Hread.
    unfold try_except, evaluate_task, bind, call_search. rewrite Hcall.
    unfold record_outcome, bind, lift. rewrite Hfound, Hpath, Ha, Hb.
    unfold print, emit, ret. simpl. rewrite <- !app_assoc. reflexivity.
  - apply simple_test_found_run; assumption.
Qed.

Lemma correct_flag_compares_truncations_witness :
  (run_task (Demo.answer Demo.found_leaf) Demo.parse_int Demo.parse_float
            Demo.files 2 0 empty_stat (Demo.start_state tt)
   = (Ok {| corr := [] ++ [1 =? 1];
            len := [] ++ [PyInt 1];
            st_size := [] ++ [2];
            steps := [] ++ [2] |},
      {| world := tt;
         log := [] ++
                [Called (mkMap [[0; 0]]) 0 0 0 1;
                 Printed (TaskPathFound 0 (PyInt 1) 2 2 (1 =? 1))] |})
   /\ ((1 =? 1) = true <-> 1 = 1))
  /\
  (simple_test (Demo.answer Demo.found_leaf) 2 (Some 0) 7 (Demo.start_state tt)
   = (Ok tt,
      {| world := tt;
         log := [] ++
                [Called simple_map 9 0 11 20;
                 Drawn simple_map (9, 0) (11, 20)
                       (Some [1%positive; 2%positive]) [];
                 Printed (PathFound (PyInt 1) 2 2 (1 =? 36))] |})
   /\ ((1 =? 36) = true <-> 1 = 36)).
Proof.
  apply (correct_flag_compares_truncations
           (Demo.answer Demo.found_leaf) Demo.parse_int Demo.parse_float
           Demo.files 2 Demo.found_leaf [1%positive; 2%positive] (PyInt 1) 1
           0 [[0; 0]] 0 0 0 1 (PyFloat (inject_Z 1)) 1
           empty_stat (Demo.start_state tt) tt
           0 7 (9, 0) (11, 20) 36 (Demo.start_state tt) tt);
    try reflexivity.
  - lia.
  - simpl. lia.
Defined.

(** The runners look at [task] only through the index they choose. *)
Lemma simple_test_at_index {World : Type}
    (search_function :
       World -> Map -> Z -> Z -> Z -> Z -> outcome search_result * World)
    (fuel : nat) (task : option Z) (drawn t : Z) (s : state) :
  choose_task 25 task drawn = t -> 0 <= t < 25 ->
  simple_test search_function fuel task drawn s
  = simple_test search_function fuel (Some t) drawn s.
Proof.
  intros Hchoice Ht. unfold simple_test.
  rewrite Hchoice, (choose_task_valid 25 t drawn Ht). reflexivity.
Qed.

Lemma simple_test_not_found_at_index {World : Type}
    (search_function :
       World -> Map -> Z -> Z -> Z -> Z -> outcome search_result * World)
    (fuel : nat) (task : option Z) (drawn t : Z) (s : state) :
  choose_task 2 task drawn = t -> 0 <= t < 2 ->
  simple_test_not_found search_function fuel task drawn s
  = simple_test_not_found search_function fuel (Some t) drawn s.
Proof.
  intros Hchoice Ht. unfold simple_test_not_found.
  rewrite Hchoice, (choose_task_valid 2 t drawn Ht). reflexivity.
Qed.

Ltac split_on_search_result :=
  cbv beta iota; cbn [snd fst world log negb];
  repeat (match goal with
          | |- context [found ?x] => destruct (found x)
          | |- context [make_path ?f ?h ?n] =>
            destruct (make_path f h n) as [[? ?] | ? |]
          | |- context [py_int ?x] => destruct (py_int x)
          | |- context [(3 <? ?n)%nat] => destruct (3 <? n)%nat
          end; cbv beta iota; cbn [snd fst world log negb]);
  rewrite <- ?app_assoc; cbn [app];
  eexists; (split; [reflexivity |]); reflexivity.

(** Whatever the search function does, [simple_test] on a valid index first
    calls it on the fixed map with the start and goal stored at that index,
    and does not call it again. *)
Lemma simple_test_calls_at_index {World : Type}
    (search_function :
       World -> Map -> Z -> Z -> Z -> Z -> outcome search_result * World)
    (fuel : nat) (t drawn : Z) (start goal : Z * Z) (length0 : Z) (s : state) :
  0 <= t < 25 ->
  py_index simple_starts t = Ok start ->
  py_index simple_goals t = Ok goal ->
  py_index simple_lengths t = Ok length0 ->
  exists evs,
    snd (simple_test search_function fuel (Some t) drawn s)
    = {| world := snd (search_function (world s) simple_map
                         (fst start) (snd start) (fst goal) (snd goal));
         log := log s ++
                Called simple_map (fst start) (snd start)
                       (fst goal) (snd goal) :: evs |} /\
    count_calls evs = 0%nat.
Proof.
  intros Ht Hstart Hgoal Hlen.
  unfold simple_test, get_map_data, bind, lift, ret.
  rewrite simple_cells_converted, (choose_task_valid 25 t drawn Ht).
  rewrite Hstart, Hgoal, Hlen.
  unfold try_except, bind, call_search, draw, lift, print, emit.
  fold simple_map.
  destruct (search_function (world s) simple_map (fst start) (snd start)
                            (fst goal) (snd goal)) as [[r | e |] w];
    split_on_search_result.
Qed.

Lemma simple_test_not_found_calls_at_index {World : Type}
    (search_function :
       World -> Map -> Z -> Z -> Z -> Z -> outcome search_result * World)
    (fuel : nat) (t drawn : Z) (start goal : Z * Z) (s : state) :
  0 <= t < 2 ->
  py_index not_found_starts t = Ok start ->
  py_index not_found_goals t = Ok goal ->
  exists evs,
    snd (simple_test_not_found search_function fuel (Some t) drawn s)
    = {| world := snd (search_function (world s) not_found_map
                         (fst start) (snd start) (fst goal) (snd goal));
         log := log s ++
                Called not_found_map (fst start) (snd start)
                       (fst goal) (snd goal) :: evs |} /\
    count_calls evs = 0%nat.
Proof.
  intros Ht Hstart Hgoal.
  unfold simple_test_not_found, get_map_data, bind, lift, ret.
  rewrite not_found_cells_converted, (choose_task_valid 2 t drawn Ht).
  rewrite Hstart, Hgoal.
  unfold try_except, bind, call_search, draw, lift, print, emit.
  fold not_found_map.
  destruct (search_function (world s) not_found_map (fst start) (snd start)
                            (fst goal) (snd goal)) as [[r | e |] w];
    split_on_search_result.
Qed.

(** C10. A [task] argument that is [None] or outside the pool ([0..24] for
    [simple_test], [0..1] for [simple_test_not_found]) is replaced, without
    any report, by the index drawn with [random.randint]; the index used is
    therefore always inside the pool, the look-ups in the start, goal and
    length pools succeed, and neither runner raises [IndexError] or any
    other exception.  The runner really works on the drawn index: the
    first thing it does is call the search function, once, on the fixed map
    with the start and goal stored at the drawn index, and a path found is
    drawn and compared with the length stored at the drawn index; the
    not-found runner likewise.  (That the draw is uniform is a property of
    [random.randint], not of the runner.) *)
Theorem out_of_range_task_is_replaced {World : Type}
    (search_function :
       World -> Map -> Z -> Z -> Z -> Z -> outcome search_result * World)
    (fuel : nat) (task : option Z) (drawn25 drawn2 : Z) (s : state) :
  0 <= drawn25 <= 24 ->
  0 <= drawn2 <= 1 ->
  (needs_draw 25 task -> choose_task 25 task drawn25 = drawn25) /\
  (needs_draw 2 task -> choose_task 2 task drawn2 = drawn2) /\
  (exists start goal length0,
     py_index simple_starts (choose_task 25 task drawn25) = Ok start /\
     py_index simple_goals (choose_task 25 task drawn25) = Ok goal /\
     py_index simple_lengths (choose_task 25 task drawn25) = Ok length0) /\
  (exists start goal,
     py_index not_found_starts (choose_task 2 task drawn2) = Ok start /\
     py_index not_found_goals (choose_task 2 task drawn2) = Ok goal) /\
  (forall e,
     fst (simple_test search_function fuel task drawn25 s) <> Raise e) /\
  (forall e,
     fst (simple_test_not_found search_function fuel task drawn2 s)
     <> Raise e) /\
  (needs_draw 25 task ->
   exists start goal length0 evs,
     py_index simple_starts drawn25 = Ok start /\
     py_index simple_goals drawn25 = Ok goal /\
     py_index simple_lengths drawn25 = Ok length0 /\
     snd (simple_test search_function fuel task drawn25 s)
     = {| world := snd (search_function (world s) simple_map
                          (fst start) (snd start) (fst goal) (snd goal));
          log := log s ++
                 Called simple_map (fst start) (snd start)
                        (fst goal) (snd goal) :: evs |} /\
     count_calls evs = 0%nat /\
     (forall r path path_length a,
        fst (search_function (world s) simple_map
               (fst start) (snd start) (fst goal) (snd goal)) = Ok r ->
        found r = true ->
        make_path fuel (tree r) (end_node r) = Ok (path, path_length) ->
        py_int path_length = Ok a ->
        (length (other_results r) <= 3)%nat ->
        fst (simple_test search_function fuel task drawn25 s) = Ok tt /\
        evs = [Drawn simple_map start goal (Some path) (other_results r);
               Printed (PathFound path_length (search_tree_size r)
                                  (number_of_steps r) (a =? length0))])) /\
  (needs_draw 2 task ->
   exists start goal evs,
     py_index not_found_starts drawn2 = Ok start /\
     py_index not_found_goals drawn2 = Ok goal /\
     snd (simple_test_not_found search_function fuel task drawn2 s)
     = {| world := snd (search_function (world s) not_found_map
                          (fst start) (snd start) (fst goal) (snd goal));
          log := log s ++
                 Called not_found_map (fst start) (snd start)
                        (fst goal) (snd goal) :: evs |} /\
     count_calls evs = 0%nat /\
     (forall r,
        fst (search_function (world s) not_found_map
               (fst start) (snd start) (fst goal) (snd goal)) = Ok r ->
        found r = false ->
        (length (other_results r) <= 3)%nat ->
        fst (simple_test_not_found search_function fuel task drawn2 s)
        = Ok tt /\
        evs = [Drawn not_found_map start goal None (other_results r);
               Printed (NoPathConfirmed (search_tree_size r)
                                        (number_of_steps r))])).
Proof.
  intros H25 H2.
  assert (R25 : 0 <= choose_task 25 task drawn25 < 25)
    by (apply choose_task_in_range; lia).
  assert (R2 : 0 <= choose_task 2 task drawn2 < 2)
    by (apply choose_task_in_range; lia).
  destruct (py_index_in_range simple_starts _ R25) as [st1 Hst1].
  destruct (py_index_in_range simple_goals _ R25) as [gl1 Hgl1].
  destruct (py_index_in_range simple_lengths _ R25) as [ln1 Hln1].
  destruct (py_index_in_range not_found_starts _ R2) as [st2 Hst2].
  destruct (py_index_in_range not_found_goals _ R2) as [gl2 Hgl2].
  assert (C25 : needs_draw 25 task -> choose_task 25 task drawn25 = drawn25).
  { unfold needs_draw, choose_task. destruct task as [t |]; [| reflexivity].
    intros Hout. destruct (Z.leb_spec 0 t), (Z.ltb_spec t 25); simpl; lia. }
  assert (C2 : needs_draw 2 task -> choose_task 2 task drawn2 = drawn2).
  { unfold needs_draw, choose_task. destruct task as [t |]; [| reflexivity].
    intros Hout. destruct (Z.leb_spec 0 t), (Z.ltb_spec t 2); simpl; lia. }
  split; [exact C25 |]. split; [exact C2 |].
  split; [exists st1, gl1, ln1; auto |].
  split; [exists st2, gl2; auto |].
  split; [| split; [| split]].
  - intros e. unfold simple_test, get_map_data, bind, lift, ret.
    rewrite simple_cells_converted, Hst1, Hgl1, Hln1. unfold try_except.
    match goal with
    | |- fst (let (_, _) := ?body in _) <> _ =>
      destruct body as [[u | e' |] s2]
    end; simpl; discriminate.
  - intros e. unfold simple_test_not_found, get_map_data, bind, lift, ret.
    rewrite not_found_cells_converted, Hst2, Hgl2. unfold try_except.
    match goal with
    | |- fst (let (_, _) := ?body in _) <> _ =>
      destruct body as [[u | e' |] s2]
    end; simpl; discriminate.
  - intros Hneeds. specialize (C25 Hneeds). rewrite C25 in *.
    rewrite (simple_test_at_index search_function fuel task drawn25 drawn25 s
               C25 R25).
    destruct (simple_test_calls_at_index search_function fuel drawn25 drawn25
                st1 gl1 ln1 s R25 Hst1 Hgl1 Hln1) as (evs & Hsnd & Hcount).
    exists st1, gl1, ln1, evs.
    split; [exact Hst1 |]. split; [exact Hgl1 |]. split; [exact Hln1 |].
    split; [exact Hsnd |]. split; [exact Hcount |].
    intros r path path_length a Hres Hfound Hpath Ha Hfew.
    destruct (search_function (world s) simple_map (fst st1) (snd st1)
                              (fst gl1) (snd gl1)) as [res w] eqn:Hcall.
    simpl in Hres. subst res.
    rewrite (simple_test_found_run search_function fuel r path path_length
               a drawn25 drawn25 st1 gl1 ln1 s w
               R25 Hst1 Hgl1 Hln1 Hcall Hfound Hpath Ha Hfew) in *.
    split; [reflexivity |].
    simpl in Hsnd. injection Hsnd as Hlog.
    apply app_inv_head in Hlog. injection Hlog as <-. reflexivity.
  - intros Hneeds. specialize (C2 Hneeds). rewrite C2 in *.
    rewrite (simple_test_not_found_at_index search_function fuel task
               drawn2 drawn2 s C2 R2).
    destruct (simple_test_not_found_calls_at_index search_function fuel
                drawn2 drawn2 st2 gl2 s R2 Hst2 Hgl2)
      as (evs & Hsnd & Hcount).
    exists st2, gl2, evs.
    split; [exact Hst2 |]. split; [exact Hgl2 |].
    split; [exact Hsnd |]. split; [exact Hcount |].
    intros r Hres Hfound Hfew.
    destruct (search_function (world s) not_found_map (fst st2) (snd st2)
                              (fst gl2) (snd gl2)) as [res w] eqn:Hcall.
    simpl in Hres. subst res.
    rewrite (simple_test_not_found_run search_function fuel r
               drawn2 drawn2 st2 gl2 s w R2 Hst2 Hgl2 Hcall Hfound Hfew) in *.
    split; [reflexivity |].
    simpl in Hsnd. injection Hsnd as Hlog.
    apply app_inv_head in Hlog. injection Hlog as <-. reflexivity.
Qed.

Lemma out_of_range_task_is_replaced_witness :
  choose_task 25 (Some 99) 7 = 7 /\
  (forall e,
     fst (simple_test (Demo.answer Demo.found_leaf) 2 (Some 99) 7
                      (Demo.start_state tt)) <> Raise e) /\
  (forall e,
     fst (simple_test_not_found (Demo.answer Demo.found_leaf) 2 (Some 99) 1
                                (Demo.start_state tt)) <> Raise e) /\
  simple_test (Demo.answer Demo.found_leaf) 2 (Some 99) 7 (Demo.start_state tt)
  = (Ok tt,
     {| world := tt;
        log := [Called simple_map 5 20 12 4;
                Drawn simple_map (5, 20) (12, 4)
                      (Some [1%positive; 2%positive]) [];
                Printed (PathFound (PyInt 1) 2 2 (1 =? 27))] |}).
Proof.
  assert (Hneeds : needs_draw 25 (Some 99)) by (simpl; lia).
  destruct (out_of_range_task_is_replaced
              (Demo.answer Demo.found_leaf) 2 (Some 99) 7 1
              (Demo.start_state tt))
    as (Hchoice & _ & _ & _ & Hsafe & Hsafe' & Huse & _); [lia | lia |].
  split; [exact (Hchoice Hneeds) |]. split; [exact Hsafe |].
  split; [exact Hsafe' |].
  destruct (Huse Hneeds)
    as (start & goal & length0 & evs & Hstart & Hgoal & Hlen & Hsnd & _ & Hrun).
  vm_compute in Hstart, Hgoal, Hlen.
  injection Hstart as <-. injection Hgoal as <-. injection Hlen as <-.
  assert (Hfew : (length (other_results Demo.found_leaf) <= 3)%nat)
    by (simpl; lia).
  destruct (Hrun Demo.found_leaf [1%positive; 2%positive] (PyInt 1) 1
                 eq_refl eq_refl eq_refl eq_refl Hfew) as [Hok Hevs].
  subst evs.
  destruct (simple_test (Demo.answer Demo.found_leaf) 2 (Some 99) 7
                        (Demo.start_state tt)) as [o s'].
  simpl in Hok, Hsnd. subst o s'. reflexivity.
Defined.

(** ** Shortest paths on the fixed maps *)

Lemma in_range (n i : Z) : 0 <= i < n -> In i (range n).
Proof.
  intros Hi. unfold range. apply in_map_iff. exists (Z.to_nat i).
  split; [lia |]. apply in_seq. lia.
Qed.

Lemma traversable_in_bounds m i j :
  traversable m i j = true -> in_bounds m i j = true.
Proof. unfold traversable. intros H. apply andb_prop in H. tauto. Qed.

Lemma consistent_relaxed m lab c :
  consistent m lab = true -> relaxed m lab c = true.
Proof.
  intros Hcons. destruct c as [i j].
  destruct (traversable m i j) eqn:Ht;
    [| unfold relaxed; simpl; rewrite Ht; reflexivity].
  apply traversable_in_bounds in Ht.
  unfold consistent in Hcons. unfold in_bounds in Ht.
  destruct (get_size m) as [height width].
  rewrite !andb_true_iff in Ht. destruct Ht as [[[Hi0 Hi1] Hj0] Hj1].
  rewrite forallb_forall in Hcons.
  specialize (Hcons i (in_range height i ltac:(lia))).
  rewrite forallb_forall in Hcons.
  exact (Hcons j (in_range width j ltac:(lia))).
Qed.

Lemma cost_is_one_step (a b : cell) (c : Z) :
  compute_cost (fst a) (snd a) (fst b) (snd b) = Ok c ->
  c = 1 /\ In b (neighbours a).
Proof.
  destruct a as [ai aj], b as [bi bj]. unfold compute_cost, neighbours. simpl.
  destruct (Z.eqb_spec (Z.abs (ai - bi) + Z.abs (aj - bj)) 1) as [Hd | _];
    [| discriminate].
  intros [= <-]. split; [reflexivity |].
  assert (Hcases : (bi = ai - 1 /\ bj = aj) \/ (bi = ai + 1 /\ bj = aj) \/
                   (bi = ai /\ bj = aj - 1) \/ (bi = ai /\ bj = aj + 1))
    by lia.
  destruct Hcases as [[-> ->] | [[-> ->] | [[-> ->] | [-> ->]]]]; auto.
Qed.

Lemma label_step m lab (a b : cell) (d : nat) :
  consistent m lab = true ->
  traversable m (fst a) (snd a) = true ->
  traversable m (fst b) (snd b) = true ->
  In b (neighbours a) ->
  label_at lab a = Some d ->
  exists d', label_at lab b = Some d' /\ (d' <= S d)%nat.
Proof.
  intros Hcons Ha Hb Hin Hd.
  pose proof (consistent_relaxed m lab a Hcons) as Hrel.
  unfold relaxed in Hrel. rewrite Ha, Hd in Hrel.
  rewrite forallb_forall in Hrel. specialize (Hrel b Hin).
  rewrite Hb in Hrel.
  destruct (label_at lab b) as [d' |]; [| discriminate].
  exists d'. split; [reflexivity |]. apply Nat.leb_le. exact Hrel.
Qed.

Lemma path_cost_step (a b : cell) (rest : list cell) :
  path_cost (a :: b :: rest)
  = (let? c := compute_cost (fst a) (snd a) (fst b) (snd b) in
     let? c' := path_cost (b :: rest) in
     Ok (c + c')).
Proof. reflexivity. Qed.

(** The labels of a consistent labelling grow by at most the cost along
    any path. *)
Lemma labels_bound_paths m lab :
  consistent m lab = true ->
  forall p a b d c,
    head p = Some a -> last p = Some b ->
    all_traversable m p = true -> path_cost p = Ok c ->
    label_at lab a = Some d ->
    exists d', label_at lab b = Some d' /\ Z.of_nat d' <= Z.of_nat d + c.
Proof.
  intros Hcons.
  induction p as [| x rest IH]; intros a b d c Hhd Hlast Htrav Hcost Hd;
    [discriminate |].
  injection Hhd as ->.
  destruct rest as [| y rest'].
  - simpl in Hlast, Hcost. injection Hlast as <-. injection Hcost as <-.
    exists d. split; [exact Hd | lia].
  - rewrite last_cons_cons in Hlast.
    cbn [all_traversable forallb] in Htrav.
    apply andb_prop in Htrav. destruct Htrav as [Ha Hrest].
    pose proof Hrest as Hy. cbn [forallb] in Hy.
    apply andb_prop in Hy. destruct Hy as [Hy _].
    rewrite path_cost_step in Hcost.
    destruct (compute_cost (fst a) (snd a) (fst y) (snd y)) as [c1 | |] eqn:Hc1;
      try discriminate.
    destruct (path_cost (y :: rest')) as [c2 | |] eqn:Hc2; try discriminate.
    simpl in Hcost. injection Hcost as <-.
    destruct (cost_is_one_step a y c1 Hc1) as [-> Hin].
    destruct (label_step m lab a y d Hcons Ha Hy Hin Hd) as (d1 & Hd1 & Hle).
    destruct (IH y b d1 c2 eq_refl Hlast Hrest eq_refl Hd1) as (d' & Hd' & Hle').
    exists d'. split; [exact Hd' | lia].
Qed.

Lemma simple_task0_path_connects :
  connects simple_map (9, 0) (11, 20) simple_task0_path 36.
Proof. repeat split; vm_compute; reflexivity. Qed.

Lemma simple_task0_lower_bound p c :
  connects simple_map (9, 0) (11, 20) p c -> 36 <= c.
Proof.
  intros (Hhd & Hlast & Htrav & Hcost).
  assert (Hcons : consistent simple_map simple_labels = true)
    by (vm_compute; reflexivity).
  destruct (labels_bound_paths simple_map simple_labels Hcons
              p (9, 0) (11, 20) 0%nat c Hhd Hlast Htrav Hcost eq_refl)
    as (d' & Hd' & Hle).
  vm_compute in Hd'. injection Hd' as <-. lia.
Qed.

Lemma not_found_task0_unreachable p c :
  ~ connects not_found_map (0, 0) (14, 25) p c.
Proof.
  intros (Hhd & Hlast & Htrav & Hcost).
  assert (Hcons : consistent not_found_map not_found_labels = true)
    by (vm_compute; reflexivity).
  destruct (labels_bound_paths not_found_map not_found_labels Hcons
              p (0, 0) (14, 25) 0%nat c Hhd Hlast Htrav Hcost eq_refl)
    as (d' & Hd' & _).
  vm_compute in Hd'. discriminate.
Qed.

(** C8. On the 15x30 map of [simple_test], task 0 goes from (9, 0) to
    (11, 20) with expected length 36; a 4-connected path through traversable
    cells of cost 36 exists and none is cheaper.  Hence a search function
    that answers this task correctly reports [found], the length
    reconstructed from its goal node is 36, and [simple_test] prints
    "Correct: True". *)
Theorem simple_task0_shortest_is_36 {World : Type}
    (search_function :
       World -> Map -> Z -> Z -> Z -> Z -> outcome search_result * World)
    (fuel : nat) (r : search_result) (drawn : Z) (s : state) (w : World) :
  search_function (world s) simple_map 9 0 11 20 = (Ok r, w) ->
  correct_answer fuel simple_map (9, 0) (11, 20) r ->
  (length (other_results r) <= 3)%nat ->
  get_size simple_map = (15, 30) /\
  py_index simple_starts 0 = Ok (9, 0) /\
  py_index simple_goals 0 = Ok (11, 20) /\
  py_index simple_lengths 0 = Ok 36 /\
  (exists p, connects simple_map (9, 0) (11, 20) p 36) /\
  (forall p c, connects simple_map (9, 0) (11, 20) p c -> 36 <= c) /\
  found r = true /\
  exists path path_length,
    make_path fuel (tree r) (end_node r) = Ok (path, path_length) /\
    py_int path_length = Ok 36 /\
    simple_test search_function fuel (Some 0) drawn s
    = (Ok tt,
       {| world := w;
          log := log s ++
                 [Called simple_map 9 0 11 20;
                  Drawn simple_map (9, 0) (11, 20) (Some path)
                        (other_results r);
                  Printed (PathFound path_length (search_tree_size r)
                                     (number_of_steps r) true)] |}).
Proof.
  intros Hcall [Hiff Hbest] Hover.
  assert (Hfound : found r = true).
  { apply Hiff. exists simple_task0_path, 36.
    exact simple_task0_path_connects. }
  destruct (Hbest Hfound) as (path & pl & c & Hpath & Hint & [p Hp] & Hmin).
  assert (Hc : c = 36).
  { pose proof (simple_task0_lower_bound p c Hp).
    pose proof (Hmin _ _ simple_task0_path_connects). lia. }
  subst c.
  repeat split; try reflexivity.
  - exists simple_task0_path. exact simple_task0_path_connects.
  - exact simple_task0_lower_bound.
  - exact Hfound.
  - exists path, pl. split; [exact Hpath |]. split; [exact Hint |].
    apply (simple_test_found_run search_function fuel r path pl 36 0 drawn
             (9, 0) (11, 20) 36 s w); try reflexivity; try assumption. lia.
Qed.

Lemma simple_task0_shortest_is_36_witness :
  found Demo.found_36 = true /\
  exists path path_length,
    make_path 1 (tree Demo.found_36) (end_node Demo.found_36)
    = Ok (path, path_length) /\
    py_int path_length = Ok 36 /\
    simple_test (Demo.answer Demo.found_36) 1 (Some 0) 7 (Demo.start_state tt)
    = (Ok tt,
       {| world := tt;
          log := [] ++
                 [Called simple_map 9 0 11 20;
                  Drawn simple_map (9, 0) (11, 20) (Some path) [];
                  Printed (PathFound path_length 250 200 true)] |}).
Proof.
  destruct (simple_task0_shortest_is_36
              (Demo.answer Demo.found_36) 1 Demo.found_36 7
              (Demo.start_state tt) tt) as (_ & _ & _ & _ & _ & _ & H).
  - reflexivity.
  - split.
    + split; [| reflexivity]. intros _.
      exists simple_task0_path, 36. exact simple_task0_path_connects.
    + intros _. exists [1%positive], (PyInt 36), 36.
      split; [vm_compute; reflexivity |]. split; [reflexivity |].
      split.
      * exists simple_task0_path. exact simple_task0_path_connects.
      * exact simple_task0_lower_bound.
  - simpl. lia.
  - exact H.
Defined.

(** C9. On the map of [simple_test_not_found], task 0 goes from (0, 0) to
    (14, 25) and no 4-connected path through traversable cells joins them.
    Hence a search function that answers this task correctly reports
    [found == False], and [simple_test_not_found] then prints
    "Correct: True". *)
Theorem not_found_task0_has_no_path {World : Type}
    (search_function :
       World -> Map -> Z -> Z -> Z -> Z -> outcome search_result * World)
    (fuel : nat) (r : search_result) (drawn : Z) (s : state) (w : World) :
  search_function (world s) not_found_map 0 0 14 25 = (Ok r, w) ->
  correct_answer fuel not_found_map (0, 0) (14, 25) r ->
  (length (other_results r) <= 3)%nat ->
  py_index not_found_starts 0 = Ok (0, 0) /\
  py_index not_found_goals 0 = Ok (14, 25) /\
  traversable not_found_map 0 0 = true /\
  traversable not_found_map 14 25 = true /\
  (forall p c, ~ connects not_found_map (0, 0) (14, 25) p c) /\
  found r = false /\
  simple_test_not_found search_function fuel (Some 0) drawn s
  = (Ok tt,
     {| world := w;
        log := log s ++
               [Called not_found_map 0 0 14 25;
                Drawn not_found_map (0, 0) (14, 25) None (other_results r);
                Printed (NoPathConfirmed (search_tree_size r)
                                         (number_of_steps r))] |}).
Proof.
  intros Hcall [Hiff _] Hover.
  assert (Hfound : found r = false).
  { destruct (found r); [| reflexivity].
    destruct (proj1 Hiff eq_refl) as (p & c & Hp).
    destruct (not_found_task0_unreachable p c Hp). }
  repeat split; try reflexivity.
  - exact not_found_task0_unreachable.
  - exact Hfound.
  - apply (simple_test_not_found_run search_function fuel r 0 drawn
             (0, 0) (14, 25) s w); try reflexivity; try assumption. lia.
Qed.

Lemma not_found_task0_has_no_path_witness :
  found Demo.none_found = false /\
  simple_test_not_found (Demo.answer Demo.none_found) 1 (Some 0) 1
                        (Demo.start_state tt)
  = (Ok tt,
     {| world := tt;
        log := [] ++
               [Called not_found_map 0 0 14 25;
                Drawn not_found_map (0, 0) (14, 25) None [];
                Printed (NoPathConfirmed 300 300)] |}).
Proof.
  destruct (not_found_task0_has_no_path
              (Demo.answer Demo.none_found) 1 Demo.none_found 1
              (Demo.start_state tt) tt) as (_ & _ & _ & _ & _ & H).
  - reflexivity.
  - split.
    + split; [discriminate |].
      intros (p & c & Hp). destruct (not_found_task0_unreachable p c Hp).
    + discriminate.
  - simpl. lia.
  - exact H.
Defined.

(** * Further properties of the utilities *)

(** ** [compute_cost] *)

(** X1. The cost of a move does not depend on its direction nor on where
    on the grid it is made: swapping the two cells, or shifting both by the
    same offset, gives the same result (the same cost or the same error). *)
Theorem compute_cost_symmetric_and_shift_invariant (i1 j1 i2 j2 di dj : Z) :
  compute_cost i2 j2 i1 j1 = compute_cost i1 j1 i2 j2 /\
  compute_cost (i1 + di) (j1 + dj) (i2 + di) (j2 + dj)
  = compute_cost i1 j1 i2 j2.
Proof.
  unfold compute_cost. split.
  - replace (Z.abs (i2 - i1) + Z.abs (j2 - j1))
      with (Z.abs (i1 - i2) + Z.abs (j1 - j2)) by lia.
    reflexivity.
  - replace (i1 + di - (i2 + di)) with (i1 - i2) by lia.
    replace (j1 + dj - (j2 + dj)) with (j1 - j2) by lia.
    reflexivity.
Qed.

(** ** [convert_string_to_cells] *)

Lemma np_array_ok rows rows' :
  np_array rows = Ok rows' ->
  rows' = rows /\
  exists w, Forall (fun row => length row = w) rows.
Proof.
  destruct rows as [| r rs]; simpl.
  - intros [= <-]. split; [reflexivity |]. exists 0%nat. constructor.
  - destruct (forallb _ rs) eqn:Hall; [| discriminate].
    intros [= <-]. split; [reflexivity |]. exists (length r).
    constructor; [reflexivity |].
    rewrite forallb_forall in Hall. apply List.Forall_forall.
    intros r' Hin. apply Nat.eqb_eq. apply Hall. exact Hin.
Qed.

Lemma np_array_rectangular rows w :
  Forall (fun row => length row = w) rows -> np_array rows = Ok rows.
Proof.
  intros Hall. destruct rows as [| r rs]; [reflexivity |]. simpl.
  inversion Hall as [| ? ? Hr Hrs]; subst.
  replace (forallb _ rs) with true; [reflexivity |].
  symmetry. apply forallb_forall. intros r' Hin. apply Nat.eqb_eq.
  rewrite List.Forall_forall in Hrs. apply Hrs. exact Hin.
Qed.

Lemma convert_unfold cell_str :
  convert_string_to_cells cell_str
  = np_array
      (map (fun line =>
              map (fun char => if Ascii.eqb char hash then 1 else 0) line)
           (cell_lines cell_str)).
Proof. reflexivity. Qed.

(** X2. Whatever the text, a matrix returned by [convert_string_to_cells]
    is rectangular with no empty row, holds only 0 and 1, has one row per
    non-blank line, and 1 exactly where the line has ["#"]; so the width
    that [get_size] reads off the first row is the length of every row. *)
Theorem convert_string_to_cells_shape (cell_str : string)
    (rows : list (list Z)) :
  convert_string_to_cells cell_str = Ok rows ->
  length rows = length (cell_lines cell_str) /\
  Forall (fun row =>
            row <> [] /\
            Z.of_nat (length row) = snd (get_size (mkMap rows)) /\
            Forall (fun c => c = 0 \/ c = 1) row) rows /\
  (forall i j line c,
     cell_lines cell_str !! i = Some line -> line !! j = Some c ->
     exists row, rows !! i = Some row /\
                 row !! j = Some (if Ascii.eqb c hash then 1 else 0)).
Proof.
  rewrite convert_unfold. intros Hconv.
  apply np_array_ok in Hconv. destruct Hconv as [-> [w Hw]].
  split; [apply length_map |]. split.
  - apply List.Forall_forall. intros row Hin.
    assert (Hlen : length row = w)
      by (rewrite List.Forall_forall in Hw; apply Hw; exact Hin).
    assert (Hwidth : Z.of_nat (length row)
                     = snd (get_size
                              (mkMap
                                 (map (fun line =>
                                         map (fun char =>
                                                if Ascii.eqb char hash
                                                then 1 else 0) line)
                                      (cell_lines cell_str))))).
    { unfold get_size. simpl.
      destruct (map _ (cell_lines cell_str)) as [| r0 rs]; [destruct Hin |].
      inversion Hw; subst. simpl. congruence. }
    apply in_map_iff in Hin. destruct Hin as (line & <- & Hline).
    unfold cell_lines in Hline. apply filter_In in Hline.
    destruct Hline as [_ Hne]. repeat split.
    + destruct line; [discriminate | discriminate].
    + exact Hwidth.
    + apply List.Forall_forall. intros c Hc. apply in_map_iff in Hc.
      destruct Hc as (ch & <- & _). destruct (Ascii.eqb ch hash); auto.
  - intros i j line c Hi Hj.
    exists (map (fun char => if Ascii.eqb char hash then 1 else 0) line).
    split.
    + apply (list_lookup_fmap_Some
               (fun line0 : list ascii =>
                  map (fun char => if Ascii.eqb char hash then 1 else 0) line0)).
      eauto.
    + apply (list_lookup_fmap_Some
               (fun char : ascii => if Ascii.eqb char hash then 1 else 0)).
      eauto.
Qed.

Lemma convert_string_to_cells_shape_witness :
  length simple_cells = length (cell_lines simple_map_str) /\
  Forall (fun row =>
            row <> [] /\
            Z.of_nat (length row) = snd (get_size (mkMap simple_cells)) /\
            Forall (fun c => c = 0 \/ c = 1) row) simple_cells /\
  (forall i j line c,
     cell_lines simple_map_str !! i = Some line -> line !! j = Some c ->
     exists row, simple_cells !! i = Some row /\
                 row !! j = Some (if Ascii.eqb c hash then 1 else 0)).
Proof.
  apply (convert_string_to_cells_shape simple_map_str simple_cells).
  vm_compute. reflexivity.
Defined.

Lemma forallb_false_witness {A} (f : A -> bool) (l : list A) :
  forallb f l = false -> exists x, In x l /\ f x = false.
Proof.
  induction l as [| a l IH]; simpl; [discriminate |].
  destruct (f a) eqn:Ha; simpl.
  - intros H. destruct (IH H) as (x & Hin & Hx). eauto.
  - intros _. eauto.
Qed.

(** X3. [convert_string_to_cells] fails in one way only: it raises
    [ValueError] exactly when two non-blank lines hold different numbers of
    cells; otherwise it returns a matrix.  Characters other than ["#"] and
    the space never make it fail. *)
Theorem convert_string_to_cells_fails_on_ragged_only (cell_str : string) :
  (exists w rows,
     Forall (fun line => length line = w) (cell_lines cell_str) /\
     convert_string_to_cells cell_str = Ok rows)
  \/
  (exists line1 line2,
     In line1 (cell_lines cell_str) /\ In line2 (cell_lines cell_str) /\
     length line1 <> length line2 /\
     convert_string_to_cells cell_str
     = Raise (ValueError "inhomogeneous shape"%string)).
Proof.
  rewrite convert_unfold.
  destruct (cell_lines cell_str) as [| l ls]; simpl.
  - left. exists 0%nat, []. split; [constructor | reflexivity].
  - destruct (forallb _ (map _ ls)) eqn:Hall.
    + left. eexists (length l), _. split; [| reflexivity].
      constructor; [reflexivity |].
      rewrite forallb_forall in Hall. apply List.Forall_forall.
      intros l' Hin.
      specialize (Hall _ (in_map _ _ _ Hin)).
      apply Nat.eqb_eq in Hall. rewrite !length_map in Hall. exact Hall.
    + right. apply forallb_false_witness in Hall.
      destruct Hall as (r & Hin & Hr). apply in_map_iff in Hin.
      destruct Hin as (l' & <- & Hin').
      exists l, l'. repeat split; auto.
      apply Nat.eqb_neq in Hr. rewrite !length_map in Hr. congruence.
Qed.

Lemma remove_char_app c l1 l2 :
  remove_char c (l1 ++ l2) = remove_char c l1 ++ remove_char c l2.
Proof. apply List.filter_app. Qed.

Lemma show_cell_not_space c : Ascii.eqb (show_cell c) space = false.
Proof. unfold show_cell. destruct (c =? 0); reflexivity. Qed.

Lemma show_cell_not_newline c : Ascii.eqb (show_cell c) newline = false.
Proof. unfold show_cell. destruct (c =? 0); reflexivity. Qed.

Lemma remove_spaces_row row :
  remove_char space (flat_map (fun c => [show_cell c; space]) row)
  = map show_cell row.
Proof.
  induction row as [| c row IH]; [reflexivity |].
  simpl. unfold remove_char in *. simpl.
  rewrite show_cell_not_space. simpl. rewrite IH. reflexivity.
Qed.

Lemma split_on_line row rest :
  split_on newline (map show_cell row ++ newline :: rest)
  = map show_cell row :: split_on newline rest.
Proof.
  induction row as [| c row IH]; simpl.
  - reflexivity.
  - rewrite show_cell_not_newline, IH. reflexivity.
Qed.

Lemma remove_spaces_rows rows :
  remove_char space
    (flat_map
       (fun row => flat_map (fun c => [show_cell c; space]) row ++ [newline])
       rows)
  = flat_map (fun row => map show_cell row ++ [newline]) rows.
Proof.
  induction rows as [| row rows IH]; [reflexivity |].
  cbn [flat_map]. rewrite !remove_char_app, remove_spaces_row, IH.
  reflexivity.
Qed.

Lemma split_on_rows rows :
  split_on newline (flat_map (fun row => map show_cell row ++ [newline]) rows)
  = map (map show_cell) rows ++ [[]].
Proof.
  induction rows as [| row rows IH]; [reflexivity |].
  cbn [flat_map map]. rewrite <- app_assoc. cbn [app].
  rewrite split_on_line, IH. reflexivity.
Qed.

Lemma cell_lines_show_cells rows :
  Forall (fun row => row <> []) rows ->
  cell_lines (show_cells rows) = map (map show_cell) rows.
Proof.
  intros Hne. unfold cell_lines, show_cells.
  rewrite list_ascii_of_string_of_list_ascii, remove_spaces_rows,
    split_on_rows, List.filter_app.
  cbn [List.filter is_nonempty]. rewrite app_nil_r.
  induction Hne as [| row rows Hrow _ IH]; [reflexivity |].
  cbn [map List.filter]. rewrite IH.
  destruct row; [congruence | reflexivity].
Qed.

(** X4. Writing a cell matrix out as a map text and converting the text
    gives the matrix back, for every rectangular matrix of 0 and 1 without
    empty rows. *)
Theorem convert_show_cells_round_trip (rows : list (list Z)) (w : nat) :
  Forall (fun row =>
            row <> [] /\ length row = w /\
            Forall (fun c => c = 0 \/ c = 1) row) rows ->
  convert_string_to_cells (show_cells rows) = Ok rows.
Proof.
  intros Hrows. rewrite convert_unfold, cell_lines_show_cells.
  - assert (Hback :
      map (fun line =>
             map (fun char => if Ascii.eqb char hash then 1 else 0) line)
          (map (map show_cell) rows) = rows).
    { induction Hrows as [| row rows' (_ & _ & Hbits) _ IH]; [reflexivity |].
      simpl. rewrite IH. f_equal.
      induction Hbits as [| c row' Hc _ IHrow]; [reflexivity |].
      simpl. rewrite IHrow. f_equal.
      destruct Hc as [-> | ->]; reflexivity. }
    rewrite Hback. apply np_array_rectangular with (w := w).
    eapply Forall_impl; [exact Hrows |]. simpl. tauto.
  - eapply Forall_impl; [exact Hrows |]. simpl. tauto.
Qed.

Lemma convert_show_cells_round_trip_witness :
  convert_string_to_cells (show_cells [[0; 1; 0]; [1; 1; 0]])
  = Ok [[0; 1; 0]; [1; 1; 0]].
Proof.
  apply (convert_show_cells_round_trip [[0; 1; 0]; [1; 1; 0]] 3).
  repeat constructor; discriminate.
Defined.

(** ** [read_task_from_file] *)

Lemma obind_ok {A B} (o : outcome A) (k : A -> outcome B) (b : B) :
  obind o k = Ok b -> exists a, o = Ok a /\ k a = Ok b.
Proof. destruct o; simpl; [eauto | discriminate | discriminate]. Qed.

Lemma next_ok lines t rest :
  next lines = Ok (t, rest) -> lines = t :: rest.
Proof. destruct lines; simpl; [discriminate |]. intros [= -> ->]. reflexivity. Qed.

Lemma next_n_app ls rest :
  next_n (length ls) (ls ++ rest) = Ok (ls, rest).
Proof.
  induction ls as [| l ls IH]; [reflexivity |].
  simpl. rewrite IH. reflexivity.
Qed.

Lemma next_n_ok n lines ls rest :
  next_n n lines = Ok (ls, rest) -> lines = ls ++ rest /\ length ls = n.
Proof.
  revert lines ls rest. induction n as [| n IH]; intros lines ls rest; simpl.
  - intros [= <- <-]. auto.
  - destruct lines as [| l lines']; simpl; [discriminate |].
    destruct (next_n n lines') as [[ls' rest'] | |] eqn:Hn; simpl;
      try discriminate.
    intros [= <- <-]. destruct (IH _ _ _ Hn) as [-> <-]. auto.
Qed.

Section ReadTask.

Variable parse_int : string -> option Z.
Variable parse_float : string -> option num.

(** X5. A file made of a height line, a width line, as many map lines as
    the height says (none for a height of zero or less), four coordinate
    lines and a length line reads to the converted map and the five parsed
    values.  The width is parsed but never compared with the map, and any
    lines after the length are ignored. *)
Theorem read_task_from_file_well_formed
    (t_height t_width t_si t_sj t_gi t_gj t_length : string)
    (map_lines trailing : list string)
    (height width start_i start_j goal_i goal_j : Z) (length0 : num)
    (cells0 : list (list Z)) :
  parse_int t_height = Some height ->
  parse_int t_width = Some width ->
  length map_lines = Z.to_nat height ->
  convert_string_to_cells (String.concat ""%string map_lines) = Ok cells0 ->
  parse_int t_si = Some start_i ->
  parse_int t_sj = Some start_j ->
  parse_int t_gi = Some goal_i ->
  parse_int t_gj = Some goal_j ->
  parse_float t_length = Some length0 ->
  read_task_from_file parse_int parse_float
    (Ok ([t_height; t_width] ++ map_lines ++
         [t_si; t_sj; t_gi; t_gj; t_length] ++ trailing))
  = Ok (cells0, start_i, start_j, goal_i, goal_j, length0).
Proof.
  intros Hh Hw Hlen Hconv Hsi Hsj Hgi Hgj Hl.
  unfold read_task_from_file, int_of_text, float_of_text. simpl.
  rewrite Hh, Hw. simpl. rewrite <- Hlen, next_n_app. simpl.
  rewrite Hconv. simpl. rewrite Hsi. simpl. rewrite Hsj. simpl.
  rewrite Hgi. simpl. rewrite Hgj. simpl. rewrite Hl. reflexivity.
Qed.

(** X6. Conversely, whenever [read_task_from_file] returns, the file has
    that shape: at least [max height 0 + 7] lines, of which the first gives
    the height, the following [height] ones convert to the returned map,
    and the next five parse to the returned coordinates and length. *)
Theorem read_task_from_file_returns_only_well_formed
    (file : outcome (list string))
    (cells0 : list (list Z)) (start_i start_j goal_i goal_j : Z)
    (length0 : num) :
  read_task_from_file parse_int parse_float file = Ok (cells0, start_i, start_j, goal_i, goal_j, length0) ->
  exists t_height t_width t_si t_sj t_gi t_gj t_length map_lines trailing
         height width,
    file = Ok ([t_height; t_width] ++ map_lines ++
               [t_si; t_sj; t_gi; t_gj; t_length] ++ trailing) /\
    parse_int t_height = Some height /\
    parse_int t_width = Some width /\
    length map_lines = Z.to_nat height /\
    convert_string_to_cells (String.concat ""%string map_lines) = Ok cells0 /\
    parse_int t_si = Some start_i /\
    parse_int t_sj = Some start_j /\
    parse_int t_gi = Some goal_i /\
    parse_int t_gj = Some goal_j /\
    parse_float t_length = Some length0.
Proof.
  unfold read_task_from_file, int_of_text, float_of_text.
  destruct file as [lines | e |]; [| discriminate | discriminate].
  cbn [obind]. intros H.
  repeat match type of H with
         | obind _ _ = Ok _ =>
           let a := fresh "a" in
           let Ha := fresh "Ha" in
           apply obind_ok in H; destruct H as (a & Ha & H);
           try (destruct a as [? ?])
         end.
  injection H as <- <- <- <- <- <-.
  repeat match goal with
         | Hn : next _ = Ok _ |- _ => apply next_ok in Hn; subst
         | Hn : next_n _ _ = Ok _ |- _ =>
           apply next_n_ok in Hn; destruct Hn as [-> ?]
         | Hp : match parse_int ?t with _ => _ end = Ok _ |- _ =>
           destruct (parse_int t) eqn:?; [injection Hp as -> | discriminate Hp]
         | Hp : match parse_float ?t with _ => _ end = Ok _ |- _ =>
           destruct (parse_float t) eqn:?; [injection Hp as -> | discriminate Hp]
         end.
  do 11 eexists. repeat split; eassumption.
Qed.

End ReadTask.

Lemma read_task_from_file_well_formed_witness :
  read_task_from_file Demo.parse_int Demo.parse_float
    (Ok ([Demo.line "1"; Demo.line "2"] ++ [Demo.line ". ."] ++
         [Demo.line "0"; Demo.line "0"; Demo.line "0"; Demo.line "1";
          Demo.line "1"] ++ [Demo.line "ignored"]))
  = Ok ([[0; 0]], 0, 0, 0, 1, PyFloat (inject_Z 1)).
Proof.
  apply (read_task_from_file_well_formed Demo.parse_int Demo.parse_float
           (Demo.line "1") (Demo.line "2") (Demo.line "0") (Demo.line "0")
           (Demo.line "0") (Demo.line "1") (Demo.line "1")
           [Demo.line ". ."] [Demo.line "ignored"]
           1 2 0 0 0 1 (PyFloat (inject_Z 1)) [[0; 0]]);
    vm_compute; reflexivity.
Defined.

Lemma read_task_from_file_returns_only_well_formed_witness :
  exists t_height t_width t_si t_sj t_gi t_gj t_length map_lines trailing
         height width,
    Demo.files 0 = Ok ([t_height; t_width] ++ map_lines ++
                       [t_si; t_sj; t_gi; t_gj; t_length] ++ trailing) /\
    Demo.parse_int t_height = Some height /\
    Demo.parse_int t_width = Some width /\
    length map_lines = Z.to_nat height /\
    convert_string_to_cells (String.concat ""%string map_lines)
    = Ok [[0; 0]] /\
    Demo.parse_int t_si = Some 0 /\
    Demo.parse_int t_sj = Some 0 /\
    Demo.parse_int t_gi = Some 0 /\
    Demo.parse_int t_gj = Some 1 /\
    Demo.parse_float t_length = Some (PyFloat (inject_Z 1)).
Proof.
  apply (read_task_from_file_returns_only_well_formed
           Demo.parse_int Demo.parse_float (Demo.files 0)
           [[0; 0]] 0 0 0 1 (PyFloat (inject_Z 1))).
  vm_compute. reflexivity.
Defined.

(** ** [make_path] *)

Lemma chain_depth_unique h a k k' :
  chain_depth h a k -> chain_depth h a k' -> k = k'.
Proof.
  intros H. revert k'.
  induction H as [a nd Ha Hp | a nd p k Ha Hp _ IH]; intros k' H';
    inversion H' as [a' nd' Ha' Hp' | a' nd' p' k'' Ha' Hp' Hrest]; subst;
    try congruence.
  f_equal. apply IH. congruence.
Qed.

(** What the loop has appended when it ends: the nodes from [a] up to a
    root, the one at position [i] being [i] links closer to the root. *)
Lemma trace_parents_ok fuel h a acc res :
  trace_parents fuel h a acc = Ok res ->
  exists chain k,
    res = acc ++ chain /\ chain_depth h a k /\ length chain = S k /\
    (k < fuel)%nat /\
    forall i x, chain !! i = Some x -> chain_depth h x (k - i).
Proof.
  revert a acc res. induction fuel as [| fuel IH]; intros a acc res; simpl;
    [discriminate |].
  destruct (h !! a) as [nd |] eqn:Ha; [| discriminate].
  destruct (parent nd) as [p |] eqn:Hp.
  - intros Hrun. destruct (IH _ _ _ Hrun) as (chain & k & -> & Hk & Hlen & Hlt & Hat).
    exists (a :: chain), (S k). rewrite <- app_assoc. repeat split; simpl.
    + econstructor; eassumption.
    + congruence.
    + lia.
    + intros [| i] x Hx; simpl in *.
      * injection Hx as Hx. subst x. econstructor; eassumption.
      * apply Hat. exact Hx.
  - intros [= <-]. exists [a], 0%nat. repeat split; simpl.
    + econstructor; eassumption.
    + lia.
    + intros [| i] x Hx; simpl in *; [| discriminate].
      injection Hx as Hx. subst x. econstructor; eassumption.
Qed.

Lemma make_path_ok fuel h n path total :
  make_path fuel h (Some n) = Ok (path, total) ->
  exists chain k nd,
    path = rev chain /\ h !! n = Some nd /\ total = g nd /\
    trace_parents fuel h n [] = Ok chain /\
    chain_depth h n k /\ length chain = S k /\ (k < fuel)%nat /\
    forall i x, chain !! i = Some x -> chain_depth h x (k - i).
Proof.
  unfold make_path. destruct (h !! n) as [nd |] eqn:Hn; [| discriminate].
  destruct (trace_parents fuel h n []) as [chain | |] eqn:Hrun; simpl;
    try discriminate.
  intros [= <- <-].
  destruct (trace_parents_ok _ _ _ _ _ Hrun)
    as (chain' & k & Heq & Hk & Hlen & Hlt & Hat).
  simpl in Heq. subst chain'. exists chain, k, nd. repeat split; auto.
Qed.

(** X8. [make_path] returns for a goal node exactly when the parent chain
    of that node ends at a root; the path it returns then has one more
    node than the chain has links. *)
Theorem make_path_returns_iff_chain_ends (h : gmap addr Node) (n : addr) :
  (exists fuel path total, make_path fuel h (Some n) = Ok (path, total))
  <-> (exists k, chain_depth h n k).
Proof.
  split.
  - intros (fuel & path & total & Hrun).
    destruct (make_path_ok _ _ _ _ _ Hrun)
      as (chain & k & nd & _ & _ & _ & _ & Hk & _).
    exists k. exact Hk.
  - intros [k Hk]. destruct (chain_depth_node h n k Hk) as [nd Hn].
    destruct (make_path_chain h n k nd (S k) Hk (Nat.lt_succ_diag_r k) Hn)
      as (path & Hrun & _).
    eauto.
Qed.

(** X9. In a store without dangling references, a goal node whose parent
    chain reaches no root (it runs into a cycle) makes [make_path] loop for
    ever: no number of iterations produces a path or an exception. *)
Theorem make_path_loops_without_root (h : gmap addr Node) (n : addr)
    (fuel : nat) :
  closed_store h -> is_Some (h !! n) ->
  (forall k, ~ chain_depth h n k) ->
  make_path fuel h (Some n) = Diverge.
Proof.
  intros Hclosed [nd Hn] Hnone. unfold make_path. rewrite Hn.
  assert (Hloop : forall acc, trace_parents fuel h n acc = Diverge).
  { assert (Hin : is_Some (h !! n)) by eauto.
    clear nd Hn. revert n Hin Hnone.
    induction fuel as [| fuel' IH]; intros n [nd Hn] Hnone acc; simpl;
      [reflexivity |].
    rewrite Hn. destruct (parent nd) as [p |] eqn:Hp.
    - apply IH.
      + eapply Hclosed; eassumption.
      + intros k Hk. apply (Hnone (S k)). econstructor; eassumption.
    - destruct (Hnone 0%nat). econstructor; eassumption. }
  rewrite Hloop. reflexivity.
Qed.

Lemma make_path_loops_without_root_witness :
  make_path 10 two_cycle (Some 1%positive) = Diverge.
Proof.
  apply (make_path_loops_without_root two_cycle 1%positive 10).
  - intros a nd p Ha Hp. unfold two_cycle in *.
    destruct (decide (a = 2%positive)) as [-> | Hne2].
    + rewrite lookup_insert_eq in Ha. injection Ha as <-.
      injection Hp as <-. eexists. reflexivity.
    + rewrite lookup_insert_ne in Ha by congruence.
      destruct (decide (a = 1%positive)) as [-> | Hne1].
      * rewrite lookup_insert_eq in Ha. injection Ha as <-.
        injection Hp as <-. eexists. reflexivity.
      * rewrite lookup_insert_ne in Ha by congruence.
        rewrite lookup_empty in Ha. discriminate.
  - eexists. reflexivity.
  - intros k Hk.
    assert (Hboth : forall a j, chain_depth two_cycle a j ->
                                a = 1%positive \/ a = 2%positive -> False).
    { clear. induction 1 as [a nd Ha Hp | a nd p j Ha Hp _ IH];
        intros [-> | ->]; vm_compute in Ha; injection Ha as <-;
        simpl in Hp; try discriminate; injection Hp as <-; apply IH; auto. }
    exact (Hboth _ _ Hk (or_introl eq_refl)).
Defined.

(** X10. A path returned by [make_path] visits no node twice, and all its
    nodes are nodes of the search tree. *)
Theorem make_path_has_no_repeats (fuel : nat) (h : gmap addr Node)
    (goal : option addr) (path : list addr) (total : num) :
  make_path fuel h goal = Ok (path, total) ->
  NoDup path /\ Forall (fun x => is_Some (h !! x)) path.
Proof.
  destruct goal as [n |]; [| discriminate]. intros Hrun.
  destruct (make_path_ok _ _ _ _ _ Hrun)
    as (chain & k & nd & -> & _ & _ & _ & _ & Hlen & _ & Hat).
  split.
  - apply NoDup_ListNoDup, List.NoDup_rev, NoDup_ListNoDup.
    apply NoDup_alt. intros i j x Hi Hj.
    pose proof (lookup_lt_Some _ _ _ Hi) as Hilt.
    pose proof (lookup_lt_Some _ _ _ Hj) as Hjlt.
    pose proof (chain_depth_unique _ _ _ _ (Hat _ _ Hi) (Hat _ _ Hj)).
    lia.
  - apply List.Forall_forall. intros x Hx. apply in_rev in Hx.
    apply list_elem_of_In, list_elem_of_lookup in Hx. destruct Hx as [i Hi].
    destruct (chain_depth_node _ _ _ (Hat _ _ Hi)) as [ndx Hndx]. eauto.
Qed.

Lemma make_path_has_no_repeats_witness :
  NoDup [1%positive; 2%positive] /\
  Forall (fun x => is_Some (Demo.two_nodes !! x)) [1%positive; 2%positive].
Proof.
  apply (make_path_has_no_repeats 2 Demo.two_nodes (Some 2%positive)
           [1%positive; 2%positive] (PyInt 1)).
  vm_compute. reflexivity.
Defined.

Lemma trace_parents_prefix fuel h a pre acc chain :
  trace_parents fuel h a acc = Ok chain ->
  trace_parents fuel h a (pre ++ acc) = Ok (pre ++ chain).
Proof.
  revert a acc chain. induction fuel as [| fuel IH]; intros a acc chain; simpl;
    [discriminate |].
  destruct (h !! a) as [nd |]; [| discriminate].
  destruct (parent nd) as [p |].
  - intros Hrun. rewrite <- app_assoc. apply IH. exact Hrun.
  - intros [= <-]. rewrite app_assoc. reflexivity.
Qed.

(** X11. The path to a node is the path to its parent followed by the node
    itself: if [make_path] returns [path] for the parent of [n], then, with
    one more iteration allowed, it returns [path ++ [n]] for [n], with
    total [n.g]. *)
Theorem make_path_extends_parent_path (fuel : nat) (h : gmap addr Node)
    (n p : addr) (nd : Node) (path : list addr) (total : num) :
  h !! n = Some nd -> parent nd = Some p ->
  make_path fuel h (Some p) = Ok (path, total) ->
  make_path (S fuel) h (Some n) = Ok (path ++ [n], g nd).
Proof.
  intros Hn Hp Hrun.
  destruct (make_path_ok _ _ _ _ _ Hrun)
    as (chain & k & ndp & -> & _ & _ & Htrace & _).
  unfold make_path. rewrite Hn. simpl. rewrite Hn, Hp.
  pose proof (trace_parents_prefix fuel h p [n] [] chain Htrace) as Hpre.
  simpl in Hpre. rewrite Hpre. reflexivity.
Qed.

Lemma make_path_extends_parent_path_witness :
  make_path 2 Demo.two_nodes (Some 2%positive)
  = Ok ([1%positive] ++ [2%positive], g Demo.leaf).
Proof.
  apply (make_path_extends_parent_path 1 Demo.two_nodes 2%positive 1%positive
           Demo.leaf [1%positive] (PyInt 0)); reflexivity.
Defined.

(** ** Error paths of the single-task runners *)

Section SingleTask.

Context {World : Type}.
Variable search_function :
  World -> Map -> Z -> Z -> Z -> Z -> outcome search_result * World.

Ltac enter_simple_test Ht Hstart Hgoal Hlen :=
  unfold simple_test, get_map_data, bind, lift, ret;
  rewrite simple_cells_converted, (choose_task_valid 25 _ _ Ht);
  rewrite Hstart, Hgoal, Hlen;
  unfold try_except, bind, call_search; fold simple_map.

Ltac enter_not_found_test Ht Hstart Hgoal :=
  unfold simple_test_not_found, get_map_data, bind, lift, ret;
  rewrite not_found_cells_converted, (choose_task_valid 2 _ _ Ht);
  rewrite Hstart, Hgoal;
  unfold try_except, bind, call_search; fold not_found_map.

(** X12. When the search function raises, [simple_test] and
    [simple_test_not_found] print the execution error and return normally:
    the exception does not reach the caller, and nothing is drawn. *)
Theorem single_runners_report_search_exception
    (fuel : nat) (e : exn) (drawn : Z)
    (t : Z) (start goal : Z * Z) (length0 : Z) (s : state) (w : World)
    (t' : Z) (start' goal' : Z * Z) (s' : state) (w' : World) :
  0 <= t < 25 ->
  py_index simple_starts t = Ok start ->
  py_index simple_goals t = Ok goal ->
  py_index simple_lengths t = Ok length0 ->
  search_function (world s) simple_map (fst start) (snd start)
                  (fst goal) (snd goal) = (Raise e, w) ->
  0 <= t' < 2 ->
  py_index not_found_starts t' = Ok start' ->
  py_index not_found_goals t' = Ok goal' ->
  search_function (world s') not_found_map (fst start') (snd start')
                  (fst goal') (snd goal') = (Raise e, w') ->
  simple_test search_function fuel (Some t) drawn s
  = (Ok tt,
     {| world := w;
        log := log s ++
               [Called simple_map (fst start) (snd start) (fst goal) (snd goal);
                Printed (ExecutionError e)] |})
  /\
  simple_test_not_found search_function fuel (Some t') drawn s'
  = (Ok tt,
     {| world := w';
        log := log s' ++
               [Called not_found_map (fst start') (snd start')
                       (fst goal') (snd goal');
                Printed (ExecutionError e)] |}).
Proof.
  intros Ht Hstart Hgoal Hlen Hcall Ht' Hstart' Hgoal' Hcall'. split.
  - enter_simple_test Ht Hstart Hgoal Hlen. rewrite Hcall.
    unfold print, emit. simpl. rewrite <- !app_assoc. reflexivity.
  - enter_not_found_test Ht' Hstart' Hgoal'. rewrite Hcall'.
    unfold print, emit. simpl. rewrite <- !app_assoc. reflexivity.
Qed.

(** X13. [draw] takes at most three collections after the path.  A search
    function that returns more than three extra collections therefore
    never gets its result reported: [simple_test] with a found path, and
    [simple_test_not_found] with the expected "not found", both print an
    execution error ([TypeError]) and draw nothing. *)
Theorem single_runners_reject_extra_collections
    (fuel : nat) (drawn : Z)
    (r : search_result) (path : list addr) (path_length : num) (a : Z)
    (t : Z) (start goal : Z * Z) (length0 : Z) (s : state) (w : World)
    (r' : search_result)
    (t' : Z) (start' goal' : Z * Z) (s' : state) (w' : World) :
  0 <= t < 25 ->
  py_index simple_starts t = Ok start ->
  py_index simple_goals t = Ok goal ->
  py_index simple_lengths t = Ok length0 ->
  search_function (world s) simple_map (fst start) (snd start)
                  (fst goal) (snd goal) = (Ok r, w) ->
  found r = true ->
  make_path fuel (tree r) (end_node r) = Ok (path, path_length) ->
  py_int path_length = Ok a ->
  (3 < length (other_results r))%nat ->
  0 <= t' < 2 ->
  py_index not_found_starts t' = Ok start' ->
  py_index not_found_goals t' = Ok goal' ->
  search_function (world s') not_found_map (fst start') (snd start')
                  (fst goal') (snd goal') = (Ok r', w') ->
  found r' = false ->
  (3 < length (other_results r'))%nat ->
  simple_test search_function fuel (Some t) drawn s
  = (Ok tt,
     {| world := w;
        log := log s ++
               [Called simple_map (fst start) (snd start) (fst goal) (snd goal);
                Printed (ExecutionError TypeError)] |})
  /\
  simple_test_not_found search_function fuel (Some t') drawn s'
  = (Ok tt,
     {| world := w';
        log := log s' ++
               [Called not_found_map (fst start') (snd start')
                       (fst goal') (snd goal');
                Printed (ExecutionError TypeError)] |}).
Proof.
  intros Ht Hstart Hgoal Hlen Hcall Hfound Hpath Ha Hmany
         Ht' Hstart' Hgoal' Hcall' Hfound' Hmany'.
  split.
  - enter_simple_test Ht Hstart Hgoal Hlen. rewrite Hcall.
    unfold lift. rewrite Hfound, Hpath, Ha. simpl py_int. cbv iota beta.
    unfold draw.
    destruct (Nat.ltb_spec 3 (length (other_results r))) as [_ | Hle]; [| lia].
    unfold lift, print, emit. simpl. rewrite <- !app_assoc. reflexivity.
  - enter_not_found_test Ht' Hstart' Hgoal'. rewrite Hcall'.
    rewrite Hfound'. simpl negb. cbv iota beta. unfold draw.
    destruct (Nat.ltb_spec 3 (length (other_results r'))) as [_ | Hle]; [| lia].
    unfold lift, print, emit. simpl. rewrite <- !app_assoc. reflexivity.
Qed.

(** X14. [simple_test_not_found] treats every reported path as wrong: when
    the search function reports [found] and the path can be reconstructed,
    the path is drawn and the report says "Correct: False", whatever the
    length of the path. *)
Theorem simple_test_not_found_flags_any_path
    (fuel : nat) (drawn : Z) (r : search_result) (path : list addr)
    (path_length : num) (t : Z) (start goal : Z * Z) (s : state) (w : World) :
  0 <= t < 2 ->
  py_index not_found_starts t = Ok start ->
  py_index not_found_goals t = Ok goal ->
  search_function (world s) not_found_map (fst start) (snd start)
                  (fst goal) (snd goal) = (Ok r, w) ->
  found r = true ->
  make_path fuel (tree r) (end_node r) = Ok (path, path_length) ->
  (length (other_results r) <= 3)%nat ->
  simple_test_not_found search_function fuel (Some t) drawn s
  = (Ok tt,
     {| world := w;
        log := log s ++
               [Called not_found_map (fst start) (snd start)
                       (fst goal) (snd goal);
                Drawn not_found_map start goal (Some path) (other_results r);
                Printed (PathFound path_length (search_tree_size r)
                                   (number_of_steps r) false)] |}).
Proof.
  intros Ht Hstart Hgoal Hcall Hfound Hpath Hfew.
  enter_not_found_test Ht Hstart Hgoal. rewrite Hcall.
  rewrite Hfound. simpl negb. cbv iota beta.
  unfold lift. rewrite Hpath. cbv iota beta. unfold draw.
  destruct (Nat.ltb_spec 3 (length (other_results r))) as [Hgt | _]; [lia |].
  unfold print, emit. simpl. rewrite <- !app_assoc. reflexivity.
Qed.

(** X15. Whatever the search function does (return anything, raise, or
    never return), [simple_test] and [simple_test_not_found] call it exactly
    once, on the fixed map with the start and goal of the chosen task, and
    the state they leave is the one the search function left. *)
Theorem single_runners_call_search_once
    (fuel : nat) (task : option Z) (drawn25 drawn2 : Z) (s : state) :
  0 <= drawn25 <= 24 ->
  0 <= drawn2 <= 1 ->
  (exists start goal evs,
     py_index simple_starts (choose_task 25 task drawn25) = Ok start /\
     py_index simple_goals (choose_task 25 task drawn25) = Ok goal /\
     snd (simple_test search_function fuel task drawn25 s)
     = {| world := snd (search_function (world s) simple_map
                          (fst start) (snd start) (fst goal) (snd goal));
          log := log s ++
                 Called simple_map (fst start) (snd start)
                        (fst goal) (snd goal) :: evs |} /\
     count_calls evs = 0%nat)
  /\
  (exists start goal evs,
     py_index not_found_starts (choose_task 2 task drawn2) = Ok start /\
     py_index not_found_goals (choose_task 2 task drawn2) = Ok goal /\
     snd (simple_test_not_found search_function fuel task drawn2 s)
     = {| world := snd (search_function (world s) not_found_map
                          (fst start) (snd start) (fst goal) (snd goal));
          log := log s ++
                 Called not_found_map (fst start) (snd start)
                        (fst goal) (snd goal) :: evs |} /\
     count_calls evs = 0%nat).
Proof.
  intros H25 H2.
  assert (R25 : 0 <= choose_task 25 task drawn25 < 25)
    by (apply choose_task_in_range; lia).
  assert (R2 : 0 <= choose_task 2 task drawn2 < 2)
    by (apply choose_task_in_range; lia).
  destruct (py_index_in_range simple_starts _ R25) as [st1 Hst1].
  destruct (py_index_in_range simple_goals _ R25) as [gl1 Hgl1].
  destruct (py_index_in_range simple_lengths _ R25) as [ln1 Hln1].
  destruct (py_index_in_range not_found_starts _ R2) as [st2 Hst2].
  destruct (py_index_in_range not_found_goals _ R2) as [gl2 Hgl2].
  split.
  - exists st1, gl1.
    unfold simple_test, get_map_data, bind, lift, ret.
    rewrite simple_cells_converted, Hst1, Hgl1, Hln1.
    unfold try_except, bind, call_search, draw, lift, print, emit.
    fold simple_map.
    destruct (search_function (world s) simple_map (fst st1) (snd st1)
                              (fst gl1) (snd gl1)) as [[r | e |] w];
      cbv beta iota; cbn [snd fst world log negb];
      repeat (match goal with
              | |- context [found ?x] => destruct (found x)
              | |- context [make_path ?f ?h ?n] =>
                destruct (make_path f h n) as [[? ?] | ? |]
              | |- context [py_int ?x] => destruct (py_int x)
              | |- context [(3 <? ?n)%nat] => destruct (3 <? n)%nat
              end; cbv beta iota; cbn [snd fst world log negb]);
      rewrite <- ?app_assoc; cbn [app];
      eexists; (split; [reflexivity |]); (split; [reflexivity |]);
      (split; [reflexivity |]); reflexivity.
  - exists st2, gl2.
    unfold simple_test_not_found, get_map_data, bind, lift, ret.
    rewrite not_found_cells_converted, Hst2, Hgl2.
    unfold try_except, bind, call_search, draw, lift, print, emit.
    fold not_found_map.
    destruct (search_function (world s) not_found_map (fst st2) (snd st2)
                              (fst gl2) (snd gl2)) as [[r | e |] w];
      cbv beta iota; cbn [snd fst world log negb];
      repeat (match goal with
              | |- context [found ?x] => destruct (found x)
              | |- context [make_path ?f ?h ?n] =>
                destruct (make_path f h n) as [[? ?] | ? |]
              | |- context [py_int ?x] => destruct (py_int x)
              | |- context [(3 <? ?n)%nat] => destruct (3 <? n)%nat
              end; cbv beta iota; cbn [snd fst world log negb]);
      rewrite <- ?app_assoc; cbn [app];
      eexists; (split; [reflexivity |]); (split; [reflexivity |]);
      (split; [reflexivity |]); reflexivity.
Qed.

End SingleTask.

(** ** More on the batch runner *)

Section BatchMore.

Context {World : Type}.
Variable search_function :
  World -> Map -> Z -> Z -> Z -> Z -> outcome search_result * World.
Variable parse_int : string -> option Z.
Variable parse_float : string -> option num.
Variable files : nat -> outcome (list string).

Abbreviation one_task := (run_task search_function parse_int parse_float files).
Abbreviation tasks_loop :=
  (massive_loop search_function parse_int parse_float files).
Abbreviation whole_batch :=
  (massive_test search_function parse_int parse_float files).
Abbreviation read_file := (read_task_from_file parse_int parse_float).

Lemma massive_loop_single fuel k st s :
  tasks_loop fuel [k] st s = one_task fuel k st s.
Proof.
  simpl. unfold bind, ret.
  destruct (one_task fuel k st s) as [[st' | e |] s']; reflexivity.
Qed.

(** X16. A batch of [n + 1] tasks is the batch of [n] tasks followed by
    the evaluation of task number [n]: the first [n] tasks are read,
    searched and recorded exactly as in the shorter batch, and a failure
    of the shorter batch is the failure of the longer one. *)
Theorem massive_test_extends_shorter_batch (fuel : nat) (n : Z) (s : state) :
  0 < n ->
  massive_test search_function parse_int parse_float files fuel (Some (n + 1)) s
  = bind (massive_test search_function parse_int parse_float files fuel (Some n)) (run_task search_function parse_int parse_float files fuel
                   (Z.to_nat n)) s.
Proof.
  intros Hn. unfold massive_test.
  destruct (Z.leb_spec (n + 1) 0) as [Hle | _]; [lia |].
  destruct (Z.leb_spec n 0) as [Hle | _]; [lia |].
  replace (Z.to_nat (n + 1)) with (Z.to_nat n + 1)%nat by lia.
  rewrite seq_app. simpl seq.
  rewrite (massive_loop_app search_function parse_int parse_float files).
  unfold bind.
  destruct (tasks_loop fuel (seq 0 (Z.to_nat n)) empty_stat s)
    as [[st | e |] s1]; try reflexivity.
  apply massive_loop_single.
Qed.

(** One iteration when the search function reports that there is no path. *)
Lemma run_task_not_found fuel k st s cells0 si sj gi gj expected r w :
  read_file (files k) = Ok (cells0, si, sj, gi, gj, expected) ->
  search_function (world s) (mkMap cells0) si sj gi gj = (Ok r, w) ->
  found r = false ->
  one_task fuel k st s
  = (Ok {| corr := corr st ++ [false];
           len := len st ++ [PyFloat 0];
           st_size := st_size st ++ [search_tree_size r];
           steps := steps st ++ [number_of_steps r] |},
     {| world := w;
        log := log s ++ [Called (mkMap cells0) si sj gi gj;
                         Printed (TaskPathNotFound k)] |}).
Proof.
  intros Hread Hcall Hfound.
  unfold run_task, bind, lift. rewrite Hread.
  unfold try_except, evaluate_task, bind, call_search. rewrite Hcall.
  unfold record_outcome, bind, print, emit, ret. rewrite Hfound.
  simpl. rewrite <- !app_assoc. reflexivity.
Qed.

(** X17. If the search function finds no path on any task (and never
    raises), a batch of [n] readable tasks records [n] entries in every
    sequence, all of them [False] in ["corr"] and [0.0] in ["len"],
    whatever the reference lengths in the task files are. *)
Theorem massive_test_all_not_found (fuel : nat) (n : Z) (s : state) :
  0 < n ->
  readable parse_int parse_float files (Z.to_nat n) ->
  (forall w m a b c d,
     exists r, fst (search_function w m a b c d) = Ok r /\ found r = false) ->
  exists st s',
    whole_batch fuel (Some n) s = (Ok st, s') /\
    corr st = replicate (Z.to_nat n) false /\
    len st = replicate (Z.to_nat n) (PyFloat 0) /\
    length (st_size st) = Z.to_nat n /\
    length (steps st) = Z.to_nat n /\
    count_errors (log s') = count_errors (log s).
Proof.
  intros Hn Hread Hnone. unfold massive_test.
  destruct (Z.leb_spec n 0) as [Hle | _]; [lia |].
  assert (Hloop : forall tasks st0 s0,
    (forall k, In k tasks -> (k < Z.to_nat n)%nat) ->
    exists st s',
      tasks_loop fuel tasks st0 s0 = (Ok st, s') /\
      corr st = corr st0 ++ replicate (length tasks) false /\
      len st = len st0 ++ replicate (length tasks) (PyFloat 0) /\
      length (st_size st) = (length (st_size st0) + length tasks)%nat /\
      length (steps st) = (length (steps st0) + length tasks)%nat /\
      count_errors (log s') = count_errors (log s0)).
  { induction tasks as [| k rest IH]; intros st0 s0 Hin.
    - exists st0, s0. simpl. rewrite !app_nil_r.
      repeat split; try reflexivity; lia.
    - destruct (Hread k (Hin k (or_introl eq_refl)))
        as [[[[[[cells0 si] sj] gi] gj] expected] Hk].
      destruct (Hnone (world s0) (mkMap cells0) si sj gi gj) as (r & Hr & Hf).
      destruct (search_function (world s0) (mkMap cells0) si sj gi gj)
        as [o w] eqn:Hcall.
      simpl in Hr. subst o.
      pose proof (run_task_not_found fuel k st0 s0 _ _ _ _ _ _ _ _
                    Hk Hcall Hf) as Hstep.
      destruct (IH {| corr := corr st0 ++ [false];
                      len := len st0 ++ [PyFloat 0];
                      st_size := st_size st0 ++ [search_tree_size r];
                      steps := steps st0 ++ [number_of_steps r] |}
                   {| world := w;
                      log := log s0 ++ [Called (mkMap cells0) si sj gi gj;
                                        Printed (TaskPathNotFound k)] |}
                   (fun j Hj => Hin j (or_intror Hj)))
        as (st & s' & Hrun & Hc & Hl & Hsz & Hst & Herr).
      exists st, s'. cbn [massive_loop]. unfold bind at 1.
      rewrite Hstep, Hrun. cbn [corr len st_size steps log] in *.
      rewrite !length_app in *. rewrite count_errors_app in Herr.
      cbn [length] in *.
      repeat split.
      + rewrite Hc, <- app_assoc. reflexivity.
      + rewrite Hl, <- app_assoc. reflexivity.
      + lia.
      + lia.
      + rewrite Herr. unfold count_errors. simpl. lia. }
  destruct (Hloop (seq 0 (Z.to_nat n)) empty_stat s)
    as (st & s' & Hrun & Hc & Hl & Hsz & Hst & Herr).
  { intros k Hk. apply in_seq in Hk. lia. }
  rewrite length_seq in *. exists st, s'. simpl in *. auto 10.
Qed.

(** X18. A task for which the search function reports [found] but hands
    back [None] as goal node is treated as an execution error
    ([AttributeError] from [make_path]): [massive_test] records nothing for
    it, and [simple_test] prints the error instead of a result. *)
Theorem found_without_goal_node_is_an_error
    (fuel : nat) (r : search_result)
    (k : nat) (cells0 : list (list Z)) (si sj gi gj : Z) (expected : num)
    (st : stat) (s : state) (w : World)
    (t drawn : Z) (start goal : Z * Z) (length0 : Z) (s1 : state) (w1 : World) :
  found r = true ->
  end_node r = None ->
  read_file (files k) = Ok (cells0, si, sj, gi, gj, expected) ->
  search_function (world s) (mkMap cells0) si sj gi gj = (Ok r, w) ->
  0 <= t < 25 ->
  py_index simple_starts t = Ok start ->
  py_index simple_goals t = Ok goal ->
  py_index simple_lengths t = Ok length0 ->
  search_function (world s1) simple_map (fst start) (snd start)
                  (fst goal) (snd goal) = (Ok r, w1) ->
  one_task fuel k st s
  = (Ok st,
     {| world := w;
        log := log s ++ [Called (mkMap cells0) si sj gi gj;
                         Printed (ExecutionError AttributeError)] |})
  /\
  simple_test search_function fuel (Some t) drawn s1
  = (Ok tt,
     {| world := w1;
        log := log s1 ++
               [Called simple_map (fst start) (snd start) (fst goal) (snd goal);
                Printed (ExecutionError AttributeError)] |}).
Proof.
  intros Hfound Hnone Hread Hcall Ht Hstart Hgoal Hlen Hcall1. split.
  - unfold run_task, bind, lift. rewrite Hread.
    unfold try_except, evaluate_task, bind, call_search. rewrite Hcall.
    unfold record_outcome, bind, lift. rewrite Hfound, Hnone.
    unfold print, emit, ret. simpl. rewrite <- !app_assoc. reflexivity.
  - unfold simple_test, get_map_data, bind, lift, ret.
    rewrite simple_cells_converted, (choose_task_valid 25 t drawn Ht).
    rewrite Hstart, Hgoal, Hlen.
    unfold try_except, bind, call_search. fold simple_map. rewrite Hcall1.
    unfold lift. rewrite Hfound, Hnone.
    unfold print, emit. simpl. rewrite <- !app_assoc. reflexivity.
Qed.

(** X19. The reference length of a task file is converted with [int] only
    when a path was found.  If that conversion raises (the file holds
    ["nan"] or ["inf"]), a found path is reported as an execution error
    and nothing is recorded for the task, although the search succeeded. *)
Theorem unconvertible_reference_length_drops_found_task
    (fuel : nat) (r : search_result) (path : list addr) (path_length : num)
    (a : Z) (e : exn)
    (k : nat) (cells0 : list (list Z)) (si sj gi gj : Z) (expected : num)
    (st : stat) (s : state) (w : World) :
  read_file (files k) = Ok (cells0, si, sj, gi, gj, expected) ->
  search_function (world s) (mkMap cells0) si sj gi gj = (Ok r, w) ->
  found r = true ->
  make_path fuel (tree r) (end_node r) = Ok (path, path_length) ->
  py_int path_length = Ok a ->
  py_int expected = Raise e ->
  (expected = PyNaN \/ exists sign, expected = PyInf sign) /\
  one_task fuel k st s
  = (Ok st,
     {| world := w;
        log := log s ++ [Called (mkMap cells0) si sj gi gj;
                         Printed (ExecutionError e)] |}).
Proof.
  intros Hread Hcall Hfound Hpath Ha He. split.
  - destruct expected; simpl in He; try discriminate; eauto.
  - unfold run_task, bind, lift. rewrite Hread.
    unfold try_except, evaluate_task, bind, call_search. rewrite Hcall.
    unfold record_outcome, bind, lift. rewrite Hfound, Hpath, Ha, He.
    unfold print, emit, ret. simpl. rewrite <- !app_assoc. reflexivity.
Qed.

End BatchMore.

(** ** The reference lengths of the fixed pools *)

Lemma cell_eqb_eq a b : cell_eqb a b = true -> a = b.
Proof.
  destruct a, b. unfold cell_eqb. simpl. intros H.
  apply andb_prop in H. destruct H as [H1 H2].
  apply Z.eqb_eq in H1, H2. congruence.
Qed.

Lemma label_is_eq lab c d : label_is lab c d = true -> label_at lab c = Some d.
Proof.
  unfold label_is. destruct (label_at lab c); [| discriminate].
  intros H. apply Nat.eqb_eq in H. congruence.
Qed.

Lemma certified_sound m lab p0 s t n :
  certified m lab p0 s t n = true ->
  (exists p, connects m s t p n) /\
  (forall p c, connects m s t p c -> n <= c).
Proof.
  unfold certified. intros H.
  repeat (apply andb_prop in H; destruct H as [H ?]).
  apply Z.leb_le in H.
  match goal with Hs : label_is _ s 0 = true |- _ =>
    apply label_is_eq in Hs; rename Hs into Hzero end.
  match goal with Ht : label_is _ t _ = true |- _ =>
    apply label_is_eq in Ht; rename Ht into Hgoal end.
  split.
  - exists p0.
    destruct (head p0) as [c1 |] eqn:Hhd; [| discriminate].
    destruct (last p0) as [c2 |] eqn:Hlast; [| discriminate].
    destruct (path_cost p0) as [c |  |] eqn:Hcost; try discriminate.
    repeat match goal with
           | Hc : cell_eqb _ _ = true |- _ => apply cell_eqb_eq in Hc; subst
           | Hc : (_ =? _) = true |- _ => apply Z.eqb_eq in Hc; subst
           end.
    repeat split; assumption.
  - intros p c (Hhd & Hlast & Htrav & Hcost).
    match goal with Hc : consistent _ _ = true |- _ =>
      destruct (labels_bound_paths _ _ Hc p s t 0%nat c
                  Hhd Hlast Htrav Hcost Hzero) as (d' & Hd' & Hle) end.
    rewrite Hgoal in Hd'. injection Hd' as <-. lia.
Qed.

Lemma certified_unreachable_sound m lab s t p c :
  certified_unreachable m lab s t = true -> ~ connects m s t p c.
Proof.
  unfold certified_unreachable. intros H (Hhd & Hlast & Htrav & Hcost).
  repeat (apply andb_prop in H; destruct H as [H ?]).
  match goal with Hs : label_is _ s 0 = true |- _ =>
    apply label_is_eq in Hs; rename Hs into Hzero end.
  destruct (labels_bound_paths _ _ H p s t 0%nat c
              Hhd Hlast Htrav Hcost Hzero) as (d' & Hd' & _).
  rewrite Hd' in *. discriminate.
Qed.

Lemma py_index_lookup {A} (xs : list A) (k : Z) (x : A) :
  py_index xs k = Ok x ->
  xs !! Z.to_nat (if k <? 0 then k + Z.of_nat (length xs) else k) = Some x.
Proof.
  unfold py_index.
  destruct ((0 <=? _) && (_ <? _)); [| discriminate].
  destruct (xs !! _) as [y |]; [| discriminate].
  intros [= <-]. reflexivity.
Qed.

(** X20. Every reference length of the pool of [simple_test] is right: for
    each of the 25 tasks (also when addressed by a negative index), a
    4-connected path through traversable cells from its start to its goal
    has the cost stored in [lengths], and no path is cheaper. *)
Theorem simple_pool_lengths_are_shortest (t : Z) (start goal : cell)
    (length0 : Z) :
  py_index simple_starts t = Ok start ->
  py_index simple_goals t = Ok goal ->
  py_index simple_lengths t = Ok length0 ->
  (exists p, connects simple_map start goal p length0) /\
  (forall p c, connects simple_map start goal p c -> length0 <= c).
Proof.
  intros Hs Hg Hl.
  apply py_index_lookup in Hs, Hg, Hl.
  change (length simple_starts) with 25%nat in Hs.
  change (length simple_goals) with 25%nat in Hg.
  change (length simple_lengths) with 25%nat in Hl.
  set (i := Z.to_nat (if t <? 0 then t + Z.of_nat 25 else t)) in *.
  assert (Hall :
    forallb (fun tc : cell * cell * Z * (labelling * list cell) =>
               certified simple_map (fst (snd tc)) (snd (snd tc))
                         (fst (fst (fst tc))) (snd (fst (fst tc)))
                         (snd (fst tc)))
            (zip simple_pool simple_pool_certificates) = true)
    by (vm_compute; reflexivity).
  rewrite forallb_forall in Hall.
  destruct (lookup_lt_is_Some_2 simple_pool_certificates i) as [cert Hcert].
  { apply lookup_lt_Some in Hs. exact Hs. }
  apply (certified_sound simple_map (fst cert) (snd cert)).
  apply (Hall (start, goal, length0, cert)).
  apply list_elem_of_In, list_elem_of_lookup. exists i.
  unfold simple_pool. rewrite !lookup_zip_with, Hs, Hg, Hl, Hcert.
  reflexivity.
Qed.

Lemma simple_pool_lengths_are_shortest_witness :
  (exists p, connects simple_map (14, 29) (4, 18) p 21) /\
  (forall p c, connects simple_map (14, 29) (4, 18) p c -> 21 <= c).
Proof.
  apply (simple_pool_lengths_are_shortest 3 (14, 29) (4, 18) 21);
    reflexivity.
Defined.

(** X21. Both tasks of the pool of [simple_test_not_found] are what the
    runner takes them for: on its map no 4-connected path through
    traversable cells joins the start and the goal of either task. *)
Theorem not_found_pool_is_unreachable (t : Z) (start goal : cell)
    (p : list cell) (c : Z) :
  py_index not_found_starts t = Ok start ->
  py_index not_found_goals t = Ok goal ->
  ~ connects not_found_map start goal p c.
Proof.
  intros Hs Hg.
  apply py_index_lookup in Hs, Hg.
  change (length not_found_starts) with 2%nat in Hs.
  change (length not_found_goals) with 2%nat in Hg.
  set (i := Z.to_nat (if t <? 0 then t + Z.of_nat 2 else t)) in *.
  assert (Hall :
    forallb (fun tc : cell * cell * labelling =>
               certified_unreachable not_found_map (snd tc)
                                     (fst (fst tc)) (snd (fst tc)))
            (zip not_found_pool not_found_pool_certificates) = true)
    by (vm_compute; reflexivity).
  rewrite forallb_forall in Hall.
  destruct (lookup_lt_is_Some_2 not_found_pool_certificates i) as [lab Hlab].
  { apply lookup_lt_Some in Hs. exact Hs. }
  apply (certified_unreachable_sound not_found_map lab).
  apply (Hall (start, goal, lab)).
  apply list_elem_of_In, list_elem_of_lookup. exists i.
  unfold not_found_pool. rewrite !lookup_zip_with, Hs, Hg, Hlab.
  reflexivity.
Qed.

Lemma not_found_pool_is_unreachable_witness :
  ~ connects not_found_map (0, 0) (9, 12) [(0, 0); (9, 12)] 1.
Proof.
  apply (not_found_pool_is_unreachable 1 (0, 0) (9, 12)); reflexivity.
Defined.

(** ** [draw_rectangle] and [draw] *)

Lemma covers_cell node scale c x y :
  0 < scale ->
  covers (fst (draw_rectangle node scale c)) x y = true <->
  fst node = y / scale /\ snd node = x / scale.
Proof.
  intros Hs. destruct node as [i j]. unfold draw_rectangle, covers. simpl.
  rewrite !andb_true_iff, !Z.leb_le. split.
  - intros [[[Hx0 Hx1] Hy0] Hy1]. split.
    + apply (Z.div_unique_pos y scale i (y - i * scale)); lia.
    + apply (Z.div_unique_pos x scale j (x - j * scale)); lia.
  - intros [-> ->].
    pose proof (Z.mul_div_le x scale Hs).
    pose proof (Z.mul_succ_div_gt x scale Hs).
    pose proof (Z.mul_div_le y scale Hs).
    pose proof (Z.mul_succ_div_gt y scale Hs).
    lia.
Qed.

(** X22. With a positive scale, the rectangle that [draw_rectangle] paints
    for a node covers exactly the pixels (x, y) with [y // scale] the row
    and [x // scale] the column of the node.  So every pixel belongs to the
    rectangle of one cell only, rectangles of different cells do not
    overlap, and the rectangle of a cell inside an H x W grid lies inside
    the image of W*scale by H*scale pixels. *)
Theorem draw_rectangle_covers_its_cell (node : cell) (scale : Z) (c : color)
    (x y : Z) :
  0 < scale ->
  (covers (fst (draw_rectangle node scale c)) x y = true <->
   fst node = y / scale /\ snd node = x / scale) /\
  (forall node' c',
     covers (fst (draw_rectangle node scale c)) x y = true ->
     covers (fst (draw_rectangle node' scale c')) x y = true ->
     node' = node) /\
  (forall height width,
     0 <= fst node < height -> 0 <= snd node < width ->
     covers (fst (draw_rectangle node scale c)) x y = true ->
     0 <= x < width * scale /\ 0 <= y < height * scale) /\
  snd (draw_rectangle node scale c) = c.
Proof.
  intros Hs. split; [apply covers_cell; exact Hs |]. split; [| split].
  - intros node' c' H1 H2.
    apply covers_cell in H1, H2; try exact Hs.
    destruct node, node'. simpl in *. f_equal; lia.
  - intros height width Hi Hj H.
    destruct node as [i j]. unfold draw_rectangle, covers in H. simpl in *.
    rewrite !andb_true_iff, !Z.leb_le in H. nia.
  - reflexivity.
Qed.

Lemma draw_rectangle_covers_its_cell_witness :
  (covers (fst (draw_rectangle (2, 3) 5 (40, 180, 99))) 17 12 = true <->
   fst (2, 3) = 12 / 5 /\ snd (2, 3) = 17 / 5) /\
  (forall node' c',
     covers (fst (draw_rectangle (2, 3) 5 (40, 180, 99))) 17 12 = true ->
     covers (fst (draw_rectangle node' 5 c')) 17 12 = true ->
     node' = (2, 3)) /\
  (forall height width,
     0 <= fst (2, 3) < height -> 0 <= snd (2, 3) < width ->
     covers (fst (draw_rectangle (2, 3) 5 (40, 180, 99))) 17 12 = true ->
     0 <= 17 < width * 5 /\ 0 <= 12 < height * 5) /\
  snd (draw_rectangle (2, 3) 5 (40, 180, 99)) = (40, 180, 99).
Proof.
  apply (draw_rectangle_covers_its_cell (2, 3) 5 (40, 180, 99) 17 12). lia.
Defined.

Lemma pixel_app (l1 l2 : list (box * color)) x y :
  pixel (l1 ++ l2) x y
  = fold_left (fun (acc : color) (p : box * color) =>
               if covers (fst p) x y then snd p else acc)
              l2 (pixel l1 x y).
Proof. unfold pixel. apply fold_left_app. Qed.

Lemma paint_uncovered (l : list (box * color)) x y (acc : color) :
  (forall p, In p l -> covers (fst p) x y = false) ->
  fold_left (fun (acc : color) (p : box * color) =>
               if covers (fst p) x y then snd p else acc) l acc = acc.
Proof.
  revert acc. induction l as [| p l IH]; intros acc Hno; [reflexivity |].
  simpl. rewrite (Hno p (or_introl eq_refl)). apply IH.
  intros q Hq. apply Hno. right. exact Hq.
Qed.

Lemma paint_one_color (l : list (box * color)) x y (acc c : color) :
  (forall p, In p l -> covers (fst p) x y = true -> snd p = c) ->
  (exists p, In p l /\ covers (fst p) x y = true) ->
  fold_left (fun (acc : color) (p : box * color) =>
               if covers (fst p) x y then snd p else acc) l acc = c.
Proof.
  revert acc. induction l as [| p l IH]; intros acc Hall [q [Hin Hq]];
    [destruct Hin |].
  simpl.
  destruct (existsb (fun p => covers (fst p) x y) l) eqn:Hex.
  - apply existsb_exists in Hex. apply IH; [| exact Hex].
    intros r Hr. apply Hall. right. exact Hr.
  - assert (Hno : forall r, In r l -> covers (fst r) x y = false).
    { intros r Hr. destruct (covers (fst r) x y) eqn:Hc; [| reflexivity].
      assert (existsb (fun p => covers (fst p) x y) l = true)
        by (apply existsb_exists; eauto).
      congruence. }
    rewrite (paint_uncovered l x y _ Hno).
    destruct Hin as [-> | Hin].
    + rewrite Hq. apply Hall; [left; reflexivity | exact Hq].
    + rewrite (Hno q Hin) in Hq. discriminate.
Qed.

Lemma range_in (n i : Z) : In i (range n) -> 0 <= i < n.
Proof.
  unfold range. intros H. apply in_map_iff in H. destruct H as (k & <- & Hk).
  apply in_seq in Hk. lia.
Qed.

Lemma blocked_box_in (m : Map) (b : box) (c : color) height width :
  In (b, c)
     (flat_map
        (fun i =>
           flat_map
             (fun j =>
                if negb (traversable m i j) then
                  [((j * 5, i * 5, (j + 1) * 5 - 1, (i + 1) * 5 - 1),
                    (70, 80, 80))]
                else [])
             (range width))
        (range height)) <->
  exists i j, 0 <= i < height /\ 0 <= j < width /\
              traversable m i j = false /\
              (b, c) = draw_rectangle (i, j) 5 (70, 80, 80).
Proof.
  rewrite in_flat_map. split.
  - intros (i & Hi & H). apply in_flat_map in H. destruct H as (j & Hj & H).
    destruct (traversable m i j) eqn:Ht; simpl in H; [destruct H |].
    destruct H as [H | []]. exists i, j.
    pose proof (range_in _ _ Hi). pose proof (range_in _ _ Hj).
    repeat split; try lia; first [assumption | symmetry; assumption].
  - intros (i & j & Hi & Hj & Ht & Heq). exists i.
    split; [apply in_range; exact Hi |]. apply in_flat_map. exists j.
    split; [apply in_range; exact Hj |]. rewrite Ht. simpl. left.
    symmetry. exact Heq.
Qed.

(** X23. Drawing a map alone shows exactly its obstacles: every pixel of
    the image is dark grey when the cell it belongs to (row [y // 5],
    column [x // 5]) is blocked and white when it is free. *)
Theorem draw_bare_map_shows_obstacles (grid_map : Map) (x y : Z) :
  0 <= x < snd (get_size grid_map) * 5 ->
  0 <= y < fst (get_size grid_map) * 5 ->
  pixel (draw_image grid_map None None None None None None) x y
  = if traversable grid_map (y / 5) (x / 5) then white else (70, 80, 80).
Proof.
  intros Hx Hy. unfold draw_image.
  destruct (get_size grid_map) as [height width] eqn:Hsize. simpl in Hx, Hy.
  cbn [flat_map fst snd app]. rewrite !app_nil_r.
  unfold pixel.
  destruct (traversable grid_map (y / 5) (x / 5)) eqn:Ht.
  - apply paint_uncovered. intros [b c] Hin.
    apply blocked_box_in in Hin.
    destruct Hin as (i & j & _ & _ & Hblocked & Heq).
    destruct (covers (fst (b, c)) x y) eqn:Hc; [| reflexivity].
    rewrite Heq in Hc. apply covers_cell in Hc; [| lia].
    simpl in Hc. destruct Hc as [-> ->]. congruence.
  - apply paint_one_color.
    + intros [b c] Hin _. apply blocked_box_in in Hin.
      destruct Hin as (i & j & _ & _ & _ & Heq). injection Heq as _ ->.
      reflexivity.
    + exists (draw_rectangle (y / 5, x / 5) 5 (70, 80, 80)). split.
      * apply blocked_box_in. exists (y / 5), (x / 5).
        repeat split; try assumption.
        -- apply Z.div_pos; lia.
        -- apply Z.div_lt_upper_bound; lia.
        -- apply Z.div_pos; lia.
        -- apply Z.div_lt_upper_bound; lia.
      * apply covers_cell; [lia |]. simpl. auto.
Qed.

(** X24. The goal is painted last: when the goal cell is traversable,
    every pixel of that cell ends up red, whatever else (path, start, node
    collections) was painted on the cell before. *)
Theorem draw_marks_goal_last (grid_map : Map) (start : option cell)
    (goal : cell) (path d e r : option (list cell)) (x y : Z) :
  traversable grid_map (fst goal) (snd goal) = true ->
  fst goal = y / 5 -> snd goal = x / 5 ->
  pixel (draw_image grid_map start (Some goal) path d e r) x y = (231, 76, 60).
Proof.
  intros Ht Hi Hj. unfold draw_image.
  destruct (get_size grid_map) as [height width]. rewrite Ht.
  rewrite !app_assoc. rewrite pixel_app. simpl.
  assert (Hc : covers (fst (draw_rectangle goal 5 (231, 76, 60))) x y = true)
    by (apply covers_cell; [lia | auto]).
  simpl in Hc. rewrite Hc. reflexivity.
Qed.

(** X25. A path that runs through a non-traversable cell cannot be
    hidden: every pixel of that cell ends up orange, because the start and
    goal marks, the only things painted after the path, are painted on
    traversable cells only. *)
Theorem draw_shows_path_through_obstacle (grid_map : Map)
    (start goal : option cell) (path : list cell) (d e r : option (list cell))
    (step : cell) (x y : Z) :
  In step path ->
  traversable grid_map (fst step) (snd step) = false ->
  fst step = y / 5 -> snd step = x / 5 ->
  pixel (draw_image grid_map start goal (Some path) d e r) x y
  = (230, 126, 34).
Proof.
  intros Hin Ht Hi Hj. unfold draw_image.
  destruct (get_size grid_map) as [height width].
  assert (Hstep : step = (y / 5, x / 5)) by (destruct step; simpl in *; congruence).
  assert (Hmark : forall (o : option cell) (c : color),
            forall p, In p (match o with
                            | Some n =>
                              if traversable grid_map (fst n) (snd n)
                              then [draw_rectangle n 5 c] else []
                            | None => []
                            end) -> covers (fst p) x y = false).
  { intros [n |] c p Hp; [| destruct Hp].
    destruct (traversable grid_map (fst n) (snd n)) eqn:Hn; [| destruct Hp].
    destruct Hp as [<- | []].
    destruct (covers (fst (draw_rectangle n 5 c)) x y) eqn:Hc; [| reflexivity].
    apply covers_cell in Hc; [| lia]. destruct Hc as [Hc1 Hc2].
    assert (n = step) by (destruct n; simpl in *; subst; f_equal; lia).
    subst n. congruence. }
  rewrite !app_assoc. rewrite pixel_app.
  rewrite (paint_uncovered _ x y _ (Hmark goal _)).
  rewrite pixel_app.
  rewrite (paint_uncovered _ x y _ (Hmark start _)).
  rewrite pixel_app. apply paint_one_color.
  - intros p Hp Hc. apply in_map_iff in Hp. destruct Hp as (st & <- & _).
    apply covers_cell in Hc; [| lia]. simpl.
    assert (st = step) by (destruct st; simpl in *; subst; f_equal; lia).
    subst st. rewrite Ht. reflexivity.
  - exists (draw_rectangle step 5 (230, 126, 34)). split.
    + apply in_map_iff. exists step. rewrite Ht. auto.
    + apply covers_cell; [lia | auto].
Qed.

Lemma draw_bare_map_shows_obstacles_witness :
  pixel (draw_image simple_map None None None None None None) 107 12
  = if traversable simple_map (12 / 5) (107 / 5) then white else (70, 80, 80).
Proof.
  apply (draw_bare_map_shows_obstacles simple_map 107 12);
    unfold get_size; simpl; lia.
Defined.

Lemma draw_marks_goal_last_witness :
  pixel (draw_image simple_map (Some (9, 0)) (Some (11, 20))
           (Some [(11, 19); (11, 20)]) (Some [(11, 20)]) None None) 100 55
  = (231, 76, 60).
Proof.
  apply (draw_marks_goal_last simple_map (Some (9, 0)) (11, 20)
           (Some [(11, 19); (11, 20)]) (Some [(11, 20)]) None None 100 55);
    reflexivity.
Defined.

Lemma draw_shows_path_through_obstacle_witness :
  pixel (draw_image simple_map (Some (3, 2)) (Some (3, 5))
           (Some [(3, 2); (3, 3); (3, 4); (3, 5)]) None None None) 15 15
  = (230, 126, 34).
Proof.
  apply (draw_shows_path_through_obstacle simple_map (Some (3, 2)) (Some (3, 5))
           [(3, 2); (3, 3); (3, 4); (3, 5)] None None None (3, 3) 15 15);
    try reflexivity.
  simpl. auto.
Defined.

(** ** The runners on the concrete cases *)

Lemma single_runners_report_search_exception_witness :
  simple_test Demo.search 3 (Some 0) 7 (Demo.start_state 2%nat)
  = (Ok tt,
     {| world := 3%nat;
        log := [] ++
               [Called simple_map 9 0 11 20;
                Printed (ExecutionError (UserError "boom"))] |})
  /\
  simple_test_not_found Demo.search 3 (Some 1) 7 (Demo.start_state 2%nat)
  = (Ok tt,
     {| world := 3%nat;
        log := [] ++
               [Called not_found_map 0 0 9 12;
                Printed (ExecutionError (UserError "boom"))] |}).
Proof.
  apply (single_runners_report_search_exception Demo.search 3
           (UserError "boom") 7
           0 (9, 0) (11, 20) 36 (Demo.start_state 2%nat) 3%nat
           1 (0, 0) (9, 12) (Demo.start_state 2%nat) 3%nat);
    try reflexivity; lia.
Defined.

Lemma single_runners_reject_extra_collections_witness :
  simple_test (Cases.answer_by_goal Cases.found_with_four Cases.none_with_four)
              2 (Some 0) 7 (Demo.start_state tt)
  = (Ok tt,
     {| world := tt;
        log := [] ++
               [Called simple_map 9 0 11 20;
                Printed (ExecutionError TypeError)] |})
  /\
  simple_test_not_found
    (Cases.answer_by_goal Cases.found_with_four Cases.none_with_four)
    2 (Some 0) 7 (Demo.start_state tt)
  = (Ok tt,
     {| world := tt;
        log := [] ++
               [Called not_found_map 0 0 14 25;
                Printed (ExecutionError TypeError)] |}).
Proof.
  apply (single_runners_reject_extra_collections
           (Cases.answer_by_goal Cases.found_with_four Cases.none_with_four)
           2 7 Cases.found_with_four [1%positive; 2%positive] (PyInt 1) 1
           0 (9, 0) (11, 20) 36 (Demo.start_state tt) tt
           Cases.none_with_four
           0 (0, 0) (14, 25) (Demo.start_state tt) tt);
    try reflexivity; simpl; lia.
Defined.

Lemma simple_test_not_found_flags_any_path_witness :
  simple_test_not_found (Demo.answer Demo.found_leaf) 2 (Some 0) 7
                        (Demo.start_state tt)
  = (Ok tt,
     {| world := tt;
        log := [] ++
               [Called not_found_map 0 0 14 25;
                Drawn not_found_map (0, 0) (14, 25)
                      (Some [1%positive; 2%positive]) [];
                Printed (PathFound (PyInt 1) 2 2 false)] |}).
Proof.
  apply (simple_test_not_found_flags_any_path (Demo.answer Demo.found_leaf)
           2 7 Demo.found_leaf [1%positive; 2%positive] (PyInt 1)
           0 (0, 0) (14, 25) (Demo.start_state tt) tt);
    try reflexivity; simpl; lia.
Defined.

Lemma single_runners_call_search_once_witness :
  (exists start goal evs,
     py_index simple_starts (choose_task 25 None 7) = Ok start /\
     py_index simple_goals (choose_task 25 None 7) = Ok goal /\
     snd (simple_test Demo.search 3 None 7 (Demo.start_state 2%nat))
     = {| world := snd (Demo.search (world (Demo.start_state 2%nat)) simple_map
                          (fst start) (snd start) (fst goal) (snd goal));
          log := log (Demo.start_state 2%nat) ++
                 Called simple_map (fst start) (snd start)
                        (fst goal) (snd goal) :: evs |} /\
     count_calls evs = 0%nat)
  /\
  (exists start goal evs,
     py_index not_found_starts (choose_task 2 None 1) = Ok start /\
     py_index not_found_goals (choose_task 2 None 1) = Ok goal /\
     snd (simple_test_not_found Demo.search 3 None 1 (Demo.start_state 2%nat))
     = {| world := snd (Demo.search (world (Demo.start_state 2%nat))
                          not_found_map
                          (fst start) (snd start) (fst goal) (snd goal));
          log := log (Demo.start_state 2%nat) ++
                 Called not_found_map (fst start) (snd start)
                        (fst goal) (snd goal) :: evs |} /\
     count_calls evs = 0%nat).
Proof.
  apply (single_runners_call_search_once Demo.search 3 None 7 1
           (Demo.start_state 2%nat)); lia.
Defined.

Lemma massive_test_extends_shorter_batch_witness :
  massive_test Demo.search Demo.parse_int Demo.parse_float Demo.files
               3 (Some (2 + 1)) (Demo.start_state 0%nat)
  = bind (massive_test Demo.search Demo.parse_int Demo.parse_float Demo.files
                       3 (Some 2))
         (run_task Demo.search Demo.parse_int Demo.parse_float Demo.files
                   3 (Z.to_nat 2))
         (Demo.start_state 0%nat).
Proof.
  apply (massive_test_extends_shorter_batch
           Demo.search Demo.parse_int Demo.parse_float Demo.files
           3 2 (Demo.start_state 0%nat)).
  lia.
Defined.

Lemma massive_test_all_not_found_witness :
  exists st s',
    massive_test (Demo.answer Demo.none_found) Demo.parse_int Demo.parse_float
                 Demo.files 3 (Some 3) (Demo.start_state tt) = (Ok st, s') /\
    corr st = replicate (Z.to_nat 3) false /\
    len st = replicate (Z.to_nat 3) (PyFloat 0) /\
    length (st_size st) = Z.to_nat 3 /\
    length (steps st) = Z.to_nat 3 /\
    count_errors (log s') = count_errors (log (Demo.start_state tt)).
Proof.
  apply (massive_test_all_not_found
           (Demo.answer Demo.none_found) Demo.parse_int Demo.parse_float
           Demo.files 3 3 (Demo.start_state tt)).
  - lia.
  - intros k _. exists Demo.the_task. vm_compute. reflexivity.
  - intros w m a b c d. exists Demo.none_found. split; reflexivity.
Defined.

Lemma found_without_goal_node_is_an_error_witness :
  run_task (Demo.answer Cases.found_nothing) Demo.parse_int Demo.parse_float
           Demo.files 2 0 empty_stat (Demo.start_state tt)
  = (Ok empty_stat,
     {| world := tt;
        log := [] ++ [Called (mkMap [[0; 0]]) 0 0 0 1;
                      Printed (ExecutionError AttributeError)] |})
  /\
  simple_test (Demo.answer Cases.found_nothing) 2 (Some 0) 7
              (Demo.start_state tt)
  = (Ok tt,
     {| world := tt;
        log := [] ++
               [Called simple_map 9 0 11 20;
                Printed (ExecutionError AttributeError)] |}).
Proof.
  apply (found_without_goal_node_is_an_error
           (Demo.answer Cases.found_nothing) Demo.parse_int Demo.parse_float
           Demo.files 2 Cases.found_nothing
           0 [[0; 0]] 0 0 0 1 (PyFloat (inject_Z 1))
           empty_stat (Demo.start_state tt) tt
           0 7 (9, 0) (11, 20) 36 (Demo.start_state tt) tt);
    try reflexivity; lia.
Defined.

Lemma unconvertible_reference_length_drops_found_task_witness :
  (PyNaN = PyNaN \/ exists sign, PyNaN = PyInf sign) /\
  run_task (Demo.answer Demo.found_leaf) Demo.parse_int Cases.parse_float
           Cases.nan_files 2 0 empty_stat (Demo.start_state tt)
  = (Ok empty_stat,
     {| world := tt;
        log := [] ++
               [Called (mkMap [[0; 0]]) 0 0 0 1;
                Printed (ExecutionError
                           (ValueError "cannot convert float NaN to integer"))]
     |}).
Proof.
  apply (unconvertible_reference_length_drops_found_task
           (Demo.answer Demo.found_leaf) Demo.parse_int Cases.parse_float
           Cases.nan_files 2 Demo.found_leaf [1%positive; 2%positive]
           (PyInt 1) 1
           (ValueError "cannot convert float NaN to integer")
           0 [[0; 0]] 0 0 0 1 PyNaN empty_stat (Demo.start_state tt) tt);
    reflexivity.
Defined.
